(** * VisionHandTracker: the hand-tracking module, embedded and verified

    A shallow embedding of [handtrackingmodule.py]: the [HandDetector]
    class ([__init__], [findHands], [findPosition]) and the [main] loop.

    Python floats are IEEE-754 binary64 values, modelled by the Standard
    Library's [spec_float] with [prec = 53] and [emax = 1024]; Python
    integers are [Z].  Exceptions are an explicit [result] type.  Objects
    mutated in place (the frame, the detector) are passed in and handed
    back by every operation that can touch them.  What OpenCV and
    MediaPipe do is not part of the module: it is an interface
    ([Backend]) over which every definition and theorem is generic. *)

From Stdlib Require Import ZArith Lia Bool String Ascii DecimalString.
From Stdlib Require Import Floats.SpecFloat.
From stdpp Require Import base tactics option list.

Set Default Proof Using "Type".

(* ===================================================================== *)
(** ** Python values: binary64 floats, integers, exceptions *)
(* ===================================================================== *)

Module Float64.

Definition prec : Z := 53.
Definition emax : Z := 1024.

Definition float : Type := spec_float.

Definition zero : float := S754_zero false.

(** Conversion of an integer, correctly rounded (exact below [2^53]). *)
Definition of_int (z : Z) : float := binary_normalize prec emax z 0 false.

Definition mul : float -> float -> float := SFmul prec emax.
Definition sub : float -> float -> float := SFsub prec emax.
Definition div : float -> float -> float := SFdiv prec emax.
Definition ltb : float -> float -> bool := SFltb.

(** The nearest double to the rational [n / d] (both exact doubles). *)
Definition ratio (n d : Z) : float := div (of_int n) (of_int d).

Definition is_zero (f : float) : bool :=
  match f with S754_zero _ => true | _ => false end.

(** Integer part of a finite float, truncated toward zero.  For [e < 0],
    [Z.shiftl m e] is [m / 2^(-e)] rounded down, and [m] is positive, so
    applying the sign afterwards truncates toward zero. *)
Definition trunc (f : float) : Z :=
  match f with
  | S754_finite s m e => cond_Zopp s (Z.shiftl (Zpos m) e)
  | _ => 0%Z
  end.

(** Nearest integer to a finite float, ties to even. *)
Definition round_half_even (f : float) : Z :=
  match f with
  | S754_finite s m e =>
      if (0 <=? e)%Z then cond_Zopp s (Z.shiftl (Zpos m) e)
      else
        let q := Z.shiftl (Zpos m) e in
        let r := (Zpos m - Z.shiftl q (- e))%Z in
        let half := Z.shiftl 1 (- e - 1) in
        let up :=
          match (r ?= half)%Z with
          | Lt => false
          | Gt => true
          | Eq => Z.odd q
          end in
        cond_Zopp s (if up then q + 1 else q)%Z
  | _ => 0%Z
  end.

End Float64.

Module Py.

Import Float64.

Inductive exn : Type :=
| IndexError
| ValueError
| OverflowError
| ZeroDivisionError
| cv_error.

Inductive result (A : Type) : Type :=
| Ok (a : A)
| Raise (e : exn).
Arguments Ok {A} a.
Arguments Raise {A} e.

Definition bind {A B} (r : result A) (k : A -> result B) : result B :=
  match r with
  | Ok a => k a
  | Raise e => Raise e
  end.

Definition is_ok {A} (r : result A) : bool :=
  match r with Ok _ => true | Raise _ => false end.

(** A Python number as [main] handles them: [pTime] starts as the
    integer [0] and is a float afterwards; [fps] is a float or the
    integer [0]. *)
Inductive num : Type :=
| Int (z : Z)
| Float (f : float).

(** [float(z)]: raises when the integer is too large for a double. *)
Definition float_of_int (z : Z) : result float :=
  match of_int z with
  | S754_infinity _ => Raise OverflowError
  | f => Ok f
  end.

Definition as_float (n : num) : result float :=
  match n with
  | Int z => float_of_int z
  | Float f => Ok f
  end.

(** [int(f)] on a float: truncation toward zero. *)
Definition int_of_float (f : float) : result Z :=
  match f with
  | S754_nan => Raise ValueError
  | S754_infinity _ => Raise OverflowError
  | _ => Ok (trunc f)
  end.

(** [round(f)] on a float: nearest integer, ties to even. *)
Definition round_float (f : float) : result Z :=
  match f with
  | S754_nan => Raise ValueError
  | S754_infinity _ => Raise OverflowError
  | _ => Ok (round_half_even f)
  end.

Definition int (n : num) : result Z :=
  match n with
  | Int z => Ok z
  | Float f => int_of_float f
  end.

(** [f * z] with a float on the left and an integer on the right. *)
Definition float_mul_int (f : float) (z : Z) : result float :=
  bind (float_of_int z) (fun g => Ok (mul f g)).

(** [f - n] with a float on the left. *)
Definition float_sub (f : float) (n : num) : result float :=
  bind (as_float n) (fun g => Ok (sub f g)).

(** [f > 0]: false for NaN. *)
Definition float_gt_zero (f : float) : bool := ltb zero f.

(** [z / f] with an integer on the left and a float on the right. *)
Definition int_div_float (z : Z) (f : float) : result float :=
  if is_zero f then Raise ZeroDivisionError
  else bind (float_of_int z) (fun g => Ok (div g f)).

(** [l[i]]: negative indices count from the end of the list. *)
Definition getitem {A} (l : list A) (i : Z) : result A :=
  let n := Z.of_nat (length l) in
  let j := if (i <? 0)%Z then (n + i)%Z else i in
  if ((0 <=? j) && (j <? n))%Z
  then match l !! Z.to_nat j with Some a => Ok a | None => Raise IndexError end
  else Raise IndexError.

(** Truth value of an optional list ([None] and [[]] are false). *)
Definition truthy {A} (o : option (list A)) : bool :=
  match o with
  | Some (_ :: _) => true
  | _ => false
  end.

(** [str(z)] for an integer. *)
Definition str (z : Z) : string := NilZero.string_of_int (Z.to_int z).

End Py.

Import Py.
Notation "'let*' x ':=' c 'in' k" := (Py.bind c (fun x => k))
  (at level 10, x name, c at level 100, k at level 200).

(* ===================================================================== *)
(** ** The libraries the module drives: OpenCV and MediaPipe *)
(* ===================================================================== *)

(** A frame is a numpy array: its [shape] is [(h, w, c)] and cannot be
    changed by drawing; [data] is the pixel buffer. *)
Record Frame (Pixels : Type) : Type := mkFrame {
  shape : Z * Z * Z;
  data : Pixels
}.
Arguments mkFrame {Pixels} shape data.
Arguments shape {Pixels} f.
Arguments data {Pixels} f.

Definition with_data {Pixels} (img : Frame Pixels) (px : Pixels) : Frame Pixels :=
  mkFrame (shape img) px.

(** MediaPipe's messages, as far as the module reads them. *)
Module mp.

Record NormalizedLandmark : Type := mkLandmark {
  x : Float64.float;
  y : Float64.float;
  z : Float64.float
}.

Record NormalizedLandmarkList : Type := mkLandmarkList {
  landmark : list NormalizedLandmark
}.

(** The result of [Hands.process], a named tuple (never empty, so always
    true as a condition).  [multi_hand_landmarks] is [None] when no hand
    was found; the module reads no other field. *)
Record SolutionOutputs : Type := mkOutputs {
  multi_hand_landmarks : option (list NormalizedLandmarkList)
}.

End mp.

Definition Color : Type := Z * Z * Z.
Definition Point : Type := Z * Z.

Definition FILLED : Z := -1.
Definition FONT_HERSHEY_COMPLEX : Z := 3.

(** The calls into [cv2] and [mediapipe].  Drawing mutates the frame in
    place: a drawing call yields the new pixel buffer of the same frame.
    [circle] receives coordinates the module computes and may refuse
    them; the other calls receive camera frames and constants only. *)
Class Backend : Type := {
  Pixels : Type;
  Hands : Type;
  Hands_new : bool -> Z -> Float64.float -> Float64.float -> Hands;
  process : Hands -> Frame Pixels -> Hands * mp.SolutionOutputs;
  cvtColor_BGR2RGB : Frame Pixels -> Frame Pixels;
  draw_landmarks : Frame Pixels -> mp.NormalizedLandmarkList -> Pixels;
  circle : Frame Pixels -> Point -> Z -> Color -> Z -> Py.result Pixels;
  putText : Frame Pixels -> string -> Point -> Z -> Z -> Color -> Z -> Pixels
}.

(* ===================================================================== *)
(** ** class HandDetector *)
(* ===================================================================== *)

Section HandDetector.

Context `{B : Backend}.

Abbreviation frame := (Frame Pixels).

(** The fields of a detector.  [mpHands] and [mpDraw] are the two
    MediaPipe modules, the same for every detector; [hands] is the model
    object built from the four configuration fields. *)
Record HandDetector : Type := mkHandDetector {
  mode : bool;
  max_hands : Z;
  detection_con : Float64.float;
  track_con : Float64.float;
  hands : Hands;
  results : option mp.SolutionOutputs
}.

(** [HandDetector.__init__] *)
Definition init (mode : bool) (max_hands : Z)
    (detection_con track_con : Float64.float) : HandDetector :=
  {| mode := mode;
     max_hands := max_hands;
     detection_con := detection_con;
     track_con := track_con;
     hands := Hands_new mode max_hands detection_con track_con;
     results := None |}.

Definition default_con : Float64.float := Float64.ratio 1 2.

(** [HandDetector()] with the default arguments. *)
Definition init_default : HandDetector :=
  init false 2 default_con default_con.

(** The detector after [self.results = self.hands.process(imgRGB)]: the
    model handle has processed a frame and the result is stored. *)
Definition store_results (self : HandDetector) (hands' : Hands)
    (res : mp.SolutionOutputs) : HandDetector :=
  {| mode := mode self;
     max_hands := max_hands self;
     detection_con := detection_con self;
     track_con := track_con self;
     hands := hands';
     results := Some res |}.

Definition hand_list (res : mp.SolutionOutputs) : list mp.NormalizedLandmarkList :=
  default [] (mp.multi_hand_landmarks res).

(** The body of [for handLms in self.results.multi_hand_landmarks]. *)
Definition draw_hand (draw : bool) (img : frame)
    (handLms : mp.NormalizedLandmarkList) : frame :=
  if draw then with_data img (draw_landmarks img handLms) else img.

(** [HandDetector.findHands]: returns the detector and the frame as the
    call leaves them; the value returned in Python is that same frame. *)
Definition findHands (self : HandDetector) (img : frame) (draw : bool)
    : HandDetector * frame :=
  let imgRGB := cvtColor_BGR2RGB img in
  let '(hands', res) := process (hands self) imgRGB in
  let self' := store_results self hands' res in
  if Py.truthy (mp.multi_hand_landmarks res)
  then (self', fold_left (draw_hand draw) (hand_list res) img)
  else (self', img).

Definition PixelPosition : Type := Z * Z * Z.

(** [cx, cy = int(lm.x * w), int(lm.y * h)], left to right, with the
    conversion to an integer as a parameter: the source uses [int]. *)
Definition pixel_coords (conv : Float64.float -> Py.result Z)
    (shp : Z * Z * Z) (lm : mp.NormalizedLandmark) : Py.result (Z * Z) :=
  let '(h, w, _) := shp in
  let* fx := Py.float_mul_int (mp.x lm) w in
  let* cx := conv fx in
  let* fy := Py.float_mul_int (mp.y lm) h in
  let* cy := conv fy in
  Py.Ok (cx, cy).

(** The loop [for id, lm in enumerate(myHand.landmark)], from index
    [id] on, with the list built so far. *)
Fixpoint landmark_loop (draw : bool) (lms : list mp.NormalizedLandmark)
    (id : Z) (img : frame) (lmList : list PixelPosition)
    : frame * Py.result (list PixelPosition) :=
  match lms with
  | [] => (img, Py.Ok lmList)
  | lm :: rest =>
      match pixel_coords Py.int_of_float (shape img) lm with
      | Py.Raise e => (img, Py.Raise e)
      | Py.Ok (cx, cy) =>
          let lmList' := lmList ++ [(id, cx, cy)] in
          if draw then
            match circle img (cx, cy) 8 (255, 0, 255)%Z FILLED with
            | Py.Raise e => (img, Py.Raise e)
            | Py.Ok px => landmark_loop draw rest (id + 1) (with_data img px) lmList'
            end
          else landmark_loop draw rest (id + 1) img lmList'
      end
  end.

(** [HandDetector.findPosition]: returns the detector and the frame as
    the call leaves them, and the list or the exception raised. *)
Definition findPosition (self : HandDetector) (img : frame) (hand_no : Z)
    (draw : bool) : HandDetector * frame * Py.result (list PixelPosition) :=
  match results self with
  | Some res =>
      if Py.truthy (mp.multi_hand_landmarks res) then
        match Py.getitem (hand_list res) hand_no with
        | Py.Raise e => (self, img, Py.Raise e)
        | Py.Ok myHand =>
            let '(img', r) := landmark_loop draw (mp.landmark myHand) 0 img [] in
            (self, img', r)
        end
      else (self, img, Py.Ok [])
  | None => (self, img, Py.Ok [])
  end.

(** The list [findPosition] builds, as a function of the frame's shape
    and the landmarks alone. *)
Fixpoint positions (conv : Float64.float -> Py.result Z) (shp : Z * Z * Z)
    (id : Z) (lms : list mp.NormalizedLandmark) : Py.result (list PixelPosition) :=
  match lms with
  | [] => Py.Ok []
  | lm :: rest =>
      match pixel_coords conv shp lm with
      | Py.Raise e => Py.Raise e
      | Py.Ok (cx, cy) =>
          let* ps := positions conv shp (id + 1) rest in
          Py.Ok ((id, cx, cy) :: ps)
      end
  end.

(** The list [findPosition] returns, as a function of the stored result,
    the frame's shape and the hand index alone. *)
Definition lookup_positions (self : HandDetector) (shp : Z * Z * Z) (hand_no : Z)
    : Py.result (list PixelPosition) :=
  match results self with
  | Some res =>
      if Py.truthy (mp.multi_hand_landmarks res) then
        let* myHand := Py.getitem (hand_list res) hand_no in
        positions Py.int_of_float shp 0 (mp.landmark myHand)
      else Py.Ok []
  | None => Py.Ok []
  end.

(** The claim that every returned entry is [(id, conv (x * w), conv (y * h))]
    for the landmark of the same index, for a given conversion [conv] of
    a float to an integer. *)
Definition positions_follow (conv : Float64.float -> Py.result Z)
    (self : HandDetector) (img : frame) (hand_no : Z) (draw : bool) : Prop :=
  forall (res : mp.SolutionOutputs) (myHand : mp.NormalizedLandmarkList)
         (l : list PixelPosition),
    results self = Some res ->
    Py.getitem (hand_list res) hand_no = Py.Ok myHand ->
    snd (findPosition self img hand_no draw) = Py.Ok l ->
    length l = length (mp.landmark myHand)
    /\ forall (i : nat) (lm : mp.NormalizedLandmark),
         mp.landmark myHand !! i = Some lm ->
         exists cx cy, l !! i = Some (Z.of_nat i, cx, cy)
                       /\ pixel_coords conv (shape img) lm = Py.Ok (cx, cy).

(** The two states of a detector. *)
Inductive DetectorState : Type :=
| NoResult
| HasResult.

Definition state_of (self : HandDetector) : DetectorState :=
  match results self with
  | None => NoResult
  | Some _ => HasResult
  end.

(** A call of one of the two methods, and a detector's life as a
    sequence of calls. *)
Inductive Call : Type :=
| call_findHands (img : frame) (draw : bool)
| call_findPosition (img : frame) (hand_no : Z) (draw : bool).

Definition is_findHands (c : Call) : bool :=
  match c with
  | call_findHands _ _ => true
  | call_findPosition _ _ _ => false
  end.

Definition step (self : HandDetector) (c : Call) : HandDetector :=
  match c with
  | call_findHands img draw => fst (findHands self img draw)
  | call_findPosition img hand_no draw => fst (fst (findPosition self img hand_no draw))
  end.

Definition run (self : HandDetector) (calls : list Call) : HandDetector :=
  fold_left step calls self.

(** The claim that a second [findHands] on the same frame object, that
    is on the frame as the first call left it, stores the result the
    first call stored. *)
Definition same_frame_same_hands (self : HandDetector) (img : frame)
    (draw : bool) : Prop :=
  let first := findHands self img draw in
  let second := findHands (fst first) (snd first) draw in
  results (fst second) = results (fst first).

(** A landmark model is deterministic when what it reports for a frame
    does not depend on the frames the same [Hands] object has processed
    before. *)
Inductive evolves : Hands -> Hands -> Prop :=
| evolves_refl (h : Hands) : evolves h h
| evolves_process (h h' : Hands) (img : frame) :
    evolves h h' -> evolves h (fst (process h' img)).

Definition deterministic : Prop :=
  forall (h h' : Hands) (img : frame),
    evolves h h' -> snd (process h' img) = snd (process h img).

End HandDetector.

(* ===================================================================== *)
(** ** def main *)
(* ===================================================================== *)

Section Main.

Context `{B : Backend}.

Abbreviation frame := (Frame Pixels).

(** What one pass of the [while] loop receives from outside: the pair
    returned by [cap.read()] ([None] when [success] is false), the value
    of [time.time()] and the value of [cv.waitKey(1)]; a pass whose read
    fails asks for neither of the last two. *)
Record Tick : Type := mkTick {
  read : option frame;
  now : Float64.float;
  key : Z
}.

(** What [main] does to the outside, in order. *)
Inductive Effect : Type :=
| print_str (s : string)
| print_list (l : list PixelPosition)
| imshow (title : string) (img : frame)
| cap_release
| destroyAllWindows.

(** The local variables of [main], and the effects so far. *)
Record Locals : Type := mkLocals {
  pTime : Py.num;
  cTime : Py.num;
  detector : HandDetector;
  trace : list Effect
}.

Definition emit (st : Locals) (ev : Effect) : Locals :=
  mkLocals (pTime st) (cTime st) (detector st) (trace st ++ [ev]).

Definition set_detector (st : Locals) (d : HandDetector) : Locals :=
  mkLocals (pTime st) (cTime st) d (trace st).

Definition set_cTime (st : Locals) (t : Py.num) : Locals :=
  mkLocals (pTime st) t (detector st) (trace st).

Definition set_pTime (st : Locals) (t : Py.num) : Locals :=
  mkLocals t (cTime st) (detector st) (trace st).

(** [pTime = 0; cTime = 0; cap = cv.VideoCapture(0); detector = HandDetector()] *)
Definition main_init : Locals :=
  mkLocals (Py.Int 0) (Py.Int 0) init_default [].

(** [1 / (cTime - pTime) if (cTime - pTime) > 0 else 0], where [cTime]
    holds the float returned by [time.time()]. *)
Definition fps_of (cTime : Float64.float) (pTime : Py.num) : Py.result Py.num :=
  let* elapsed := Py.float_sub cTime pTime in
  if Py.float_gt_zero elapsed then
    let* elapsed' := Py.float_sub cTime pTime in
    let* q := Py.int_div_float 1 elapsed' in
    Py.Ok (Py.Float q)
  else Py.Ok (Py.Int 0).

(** The text [f'FPS: {int(fps)}']. *)
Definition fps_text (fps : Py.num) : Py.result string :=
  let* n := Py.int fps in
  Py.Ok ("FPS: " ++ Py.str n)%string.

(** The loop body after a successful read, up to and including
    [cv.imshow]; the locals are returned as the body leaves them, also
    when it raises. *)
Definition body (st : Locals) (img : frame) (t : Float64.float)
    : Locals * Py.result unit :=
  let '(d1, img1) := findHands (detector st) img true in
  let '(d2, img2, r) := findPosition d1 img1 0 true in
  let st := set_detector st d2 in
  match r with
  | Py.Raise e => (st, Py.Raise e)
  | Py.Ok lmList =>
      let st := match lmList with [] => st | _ :: _ => emit st (print_list lmList) end in
      let st := set_cTime st (Py.Float t) in
      match fps_of t (pTime st) with
      | Py.Raise e => (st, Py.Raise e)
      | Py.Ok fps =>
          let st := set_pTime st (cTime st) in
          match fps_text fps with
          | Py.Raise e => (st, Py.Raise e)
          | Py.Ok text =>
              let img3 := with_data img2
                (putText img2 text (10, 70)%Z FONT_HERSHEY_COMPLEX 2 (255, 0, 0)%Z 3) in
              (emit st (imshow "Hand Tracking" img3), Py.Ok tt)
          end
      end
  end.

(** How the [while True] loop ends on a finite script. *)
Inductive LoopEnd : Type :=
| Broke (st : Locals)
| Uncaught (e : Py.exn) (st : Locals)
| Waiting (st : Locals).

Definition esc_pressed (k : Z) : bool := (Z.land k 255 =? 27)%Z.

Fixpoint loop (st : Locals) (script : list Tick) : LoopEnd :=
  match script with
  | [] => Waiting st
  | t :: rest =>
      match read t with
      | None => Broke (emit st (print_str "Failed to read from webcam."))
      | Some img =>
          match body st img (now t) with
          | (st', Py.Raise e) => Uncaught e st'
          | (st', Py.Ok _) =>
              if esc_pressed (key t) then Broke st' else loop st' rest
          end
      end
  end.

(** How a call of [main] stands after a finite script: it returned, an
    exception left it, or it is still in the loop waiting for a frame. *)
Inductive Outcome : Type :=
| Returned (st : Locals)
| Crashed (e : Py.exn) (st : Locals)
| Running (st : Locals).

(** [main()] from given locals: the loop, then
    [cap.release(); cv.destroyAllWindows()] once the loop is left by
    [break]. *)
Definition main_from (st : Locals) (script : list Tick) : Outcome :=
  match loop st script with
  | Broke st' => Returned (emit (emit st' cap_release) destroyAllWindows)
  | Uncaught e st' => Crashed e st'
  | Waiting st' => Running st'
  end.

Definition main (script : list Tick) : Outcome := main_from main_init script.

(** The number of frames displayed so far: one [imshow] per frame that
    went through the loop body. *)
Fixpoint frames_shown (tr : list Effect) : nat :=
  match tr with
  | [] => 0
  | imshow _ _ :: tr' => S (frames_shown tr')
  | _ :: tr' => frames_shown tr'
  end.

End Main.

(* ===================================================================== *)
(** ** A test double for the two libraries *)
(* ===================================================================== *)

(** The pixel buffer of the double is the scene in front of the camera
    (the hands a detector would find in it) and the marks drawn on it so
    far; the landmark model reports exactly the hands of the scene. *)
Module Fixture.

Inductive Mark : Type :=
| skeleton (hand : mp.NormalizedLandmarkList)
| dot (center : Point)
| text (s : string) (org : Point).

Record Scene : Type := mkScene {
  scene_hands : list mp.NormalizedLandmarkList;
  overlay : list Mark
}.

Definition draw (img : Frame Scene) (m : Mark) : Scene :=
  mkScene (scene_hands (data img)) (overlay (data img) ++ [m]).

Definition fits_c_int (v : Z) : bool := ((- 2 ^ 31 <=? v) && (v <? 2 ^ 31))%Z.

Definition detect (img : Frame Scene) : mp.SolutionOutputs :=
  match scene_hands (data img) with
  | [] => mp.mkOutputs None
  | hs => mp.mkOutputs (Some hs)
  end.

#[export] Instance backend : Backend := {|
  Pixels := Scene;
  Hands := unit;
  Hands_new := fun _ _ _ _ => tt;
  process := fun h img => (h, detect img);
  cvtColor_BGR2RGB := fun img => img;
  draw_landmarks := fun img hand => draw img (skeleton hand);
  circle := fun img c _ _ _ =>
    if fits_c_int (fst c) && fits_c_int (snd c)
    then Py.Ok (draw img (dot c)) else Py.Raise Py.cv_error;
  putText := fun img s org _ _ _ _ => draw img (text s org)
|}.

(** A second double, the same but for its landmark model, which is put
    off by drawings: it reports the hands of the scene only while
    nothing has been drawn on the frame. *)
Definition detect_undrawn (img : Frame Scene) : mp.SolutionOutputs :=
  match overlay (data img) with
  | [] => detect img
  | _ :: _ => mp.mkOutputs None
  end.

Definition shy_backend : Backend := {|
  Pixels := Scene;
  Hands := unit;
  Hands_new := fun _ _ _ _ => tt;
  process := fun h img => (h, detect_undrawn img);
  cvtColor_BGR2RGB := fun img => img;
  draw_landmarks := fun img hand => draw img (skeleton hand);
  circle := fun img c _ _ _ =>
    if fits_c_int (fst c) && fits_c_int (snd c)
    then Py.Ok (draw img (dot c)) else Py.Raise Py.cv_error;
  putText := fun img s org _ _ _ _ => draw img (text s org)
|}.

(** A 640 x 480 BGR frame showing the given hands. *)
Definition vga (hs : list mp.NormalizedLandmarkList) : Frame (@Pixels backend) :=
  mkFrame (480, 640, 3)%Z (mkScene hs []).

Definition lm (x y : Float64.float) : mp.NormalizedLandmark :=
  mp.mkLandmark x y Float64.zero.

Definition hand (lms : list mp.NormalizedLandmark) : mp.NormalizedLandmarkList :=
  mp.mkLandmarkList lms.

Definition half : Float64.float := Float64.ratio 1 2.

(** A hand whose only landmark sits in the middle of the frame, and one
    whose landmark is at [x = 513/1024]: on 640 columns that is column
    320.625. *)
Definition centred : mp.NormalizedLandmarkList := hand [lm half half].
Definition off_centre : mp.NormalizedLandmarkList :=
  hand [lm (Float64.ratio 513 1024) half].

(** A default detector after [findHands], with drawing, on a 640 x 480
    frame showing [hs], and that frame as the call left it. *)
Definition detected (hs : list mp.NormalizedLandmarkList)
    : HandDetector * Frame (@Pixels backend) :=
  findHands init_default (vga hs) true.

(** One pass of the loop: a frame, the time and the key. *)
Definition tick (hs : list mp.NormalizedLandmarkList) (t : Float64.float) (k : Z)
    : Tick :=
  mkTick (Some (vga hs)) t k.

Definition no_frame : Tick := mkTick None Float64.zero (-1).

(** A hand with a landmark the model could not place. *)
Definition unplaced : mp.NormalizedLandmarkList := hand [lm S754_nan half].

End Fixture.

(* ===================================================================== *)
(** ** Vocabulary for further properties of the module *)
(* ===================================================================== *)

Section Observations.

Context `{B : Backend}.

Abbreviation frame := (Frame Pixels).

(** The four constructor arguments a detector keeps. *)
Definition config (self : HandDetector)
    : bool * Z * Float64.float * Float64.float :=
  (mode self, max_hands self, detection_con self, track_con self).

(** The markers of [findPosition], drawn from a list of positions: one
    [cv.circle(img, (cx, cy), 8, (255, 0, 255), cv.FILLED)] per entry, in
    order. *)
Fixpoint draw_dots (img : frame) (ps : list PixelPosition) : Py.result frame :=
  match ps with
  | [] => Py.Ok img
  | (_, cx, cy) :: rest =>
      match circle img (cx, cy) 8 (255, 0, 255)%Z FILLED with
      | Py.Raise e => Py.Raise e
      | Py.Ok px => draw_dots (with_data img px) rest
      end
  end.

(** A float that is not below zero: a zero of either sign, a positive
    number, plus infinity, or NaN. *)
Definition not_below_zero (f : Float64.float) : Prop :=
  Float64.ltb f Float64.zero = false.

(** A float that is a number: a zero or a finite value, not an infinity
    and not NaN. *)
Definition finite (f : Float64.float) : Prop :=
  match f with
  | S754_zero _ | S754_finite _ _ _ => True
  | S754_infinity _ | S754_nan => False
  end.

(** The sign of a product or quotient that was rounded. *)
Definition has_sign (s : bool) (f : Float64.float) : Prop :=
  match f with
  | S754_zero s' | S754_infinity s' | S754_finite s' _ _ => s' = s
  | S754_nan => True
  end.

(** The exceptions the conversions of [findPosition] and of the FPS
    label raise, and those the backend's [circle] raises. *)
Definition conversion_error (e : Py.exn) : Prop :=
  e = Py.ValueError \/ e = Py.OverflowError.

Definition circle_error (e : Py.exn) : Prop :=
  exists (img : frame) (c : Point),
    circle img c 8 (255, 0, 255)%Z FILLED = Py.Raise e.



End Observations.


(* ===================================================================== *)
(** ** Facts about the conversions of a float to an integer *)
(* ===================================================================== *)

Section Conversions.

Local Open Scope Z_scope.

(** The value of a finite float is [m * 2^e]; for [e < 0], with
    [k = - e], [trunc] gives the [q] with [q * 2^k <= m < (q + 1) * 2^k]:
    the integer part, toward zero once the sign is applied. *)
Lemma trunc_toward_zero (s : bool) (m : positive) (e : Z) :
  e < 0 ->
  let q := Z.abs (Float64.trunc (S754_finite s m e)) in
  q * 2 ^ (- e) <= Zpos m < (q + 1) * 2 ^ (- e)
  /\ Float64.trunc (S754_finite s m e) = cond_Zopp s q.
Proof.
  intros He. simpl. rewrite Z.shiftl_div_pow2 by lia.
  assert (Hpow : 0 < 2 ^ (- e)) by (apply Z.pow_pos_nonneg; lia).
  pose proof (Z.div_mod (Zpos m) (2 ^ (- e)) ltac:(lia)) as Hdm.
  pose proof (Z.mod_pos_bound (Zpos m) (2 ^ (- e)) Hpow) as Hmod.
  assert (Hq : 0 <= Zpos m / 2 ^ (- e)) by (apply Z.div_pos; lia).
  assert (Habs : Z.abs (cond_Zopp s (Zpos m / 2 ^ (- e))) = Zpos m / 2 ^ (- e)).
  { destruct s; simpl; lia. }
  rewrite Habs. split; [nia|reflexivity].
Qed.

(** [round_half_even] gives an integer at distance at most one half from
    the value: with [k = - e] and [n] the result's magnitude,
    [2 * |m - n * 2^k| <= 2^k]. *)
Lemma round_half_even_nearest (s : bool) (m : positive) (e : Z) :
  e < 0 ->
  let n := Z.abs (Float64.round_half_even (S754_finite s m e)) in
  2 * Z.abs (Zpos m - n * 2 ^ (- e)) <= 2 ^ (- e)
  /\ Float64.round_half_even (S754_finite s m e) = cond_Zopp s n.
Proof.
  intros He. unfold Float64.round_half_even.
  destruct (Z.leb_spec 0 e) as [Hle|Hle]; [lia|].
  rewrite (Z.shiftl_div_pow2 (Zpos m) e) by lia.
  rewrite (Z.shiftl_mul_pow2 _ (- e)) by lia.
  rewrite (Z.shiftl_mul_pow2 1 (- e - 1)) by lia. rewrite Z.mul_1_l.
  assert (Hpow : 0 < 2 ^ (- e)) by (apply Z.pow_pos_nonneg; lia).
  assert (Hhalf : 2 ^ (- e) = 2 * 2 ^ (- e - 1)).
  { rewrite <- Z.pow_succ_r by lia. f_equal. lia. }
  pose proof (Z.div_mod (Zpos m) (2 ^ (- e)) ltac:(lia)) as Hdm.
  pose proof (Z.mod_pos_bound (Zpos m) (2 ^ (- e)) Hpow) as Hmod.
  assert (Hq : 0 <= Zpos m / 2 ^ (- e)) by (apply Z.div_pos; lia).
  set (q := Zpos m / 2 ^ (- e)) in *.
  set (h := 2 ^ (- e - 1)) in *.
  set (p := 2 ^ (- e)) in *.
  set (n := if match Zpos m - q * p ?= h with
                | Eq => Z.odd q | Lt => false | Gt => true end
            then q + 1 else q).
  assert (Hn : 0 <= n /\ 2 * Z.abs (Zpos m - n * p) <= p).
  { unfold n. destruct (Z.compare_spec (Zpos m - q * p) h) as [Hc|Hc|Hc].
    - destruct (Z.odd q); split; nia.
    - split; nia.
    - split; nia. }
  assert (Habs : Z.abs (cond_Zopp s n) = n) by (destruct s; simpl; lia).
  cbv zeta. rewrite Habs. split; [tauto|reflexivity].
Qed.

End Conversions.

(* ===================================================================== *)
(** ** Facts about the detector *)
(* ===================================================================== *)

Section DetectorFacts.

Context `{B : Backend}.

Abbreviation frame := (Frame Pixels).

Lemma truthy_hand_list (res : mp.SolutionOutputs) :
  Py.truthy (mp.multi_hand_landmarks res) = negb (bool_decide (hand_list res = [])).
Proof.
  unfold hand_list. destruct (mp.multi_hand_landmarks res) as [[|h hs]|]; reflexivity.
Qed.

Lemma fold_draw_hand_off (hs : list mp.NormalizedLandmarkList) (img : frame) :
  fold_left (draw_hand false) hs img = img.
Proof. induction hs as [|h hs IH]; simpl; auto. Qed.

Lemma fold_draw_hand_shape (draw : bool) (hs : list mp.NormalizedLandmarkList)
    (img : frame) :
  shape (fold_left (draw_hand draw) hs img) = shape img.
Proof.
  revert img. induction hs as [|h hs IH]; intros img; simpl; [reflexivity|].
  rewrite IH. unfold draw_hand. destruct draw; reflexivity.
Qed.

Lemma findHands_results (self : HandDetector) (img : frame) (draw : bool) :
  results (fst (findHands self img draw))
  = Some (snd (process (hands self) (cvtColor_BGR2RGB img))).
Proof.
  unfold findHands, store_results.
  destruct (process (hands self) (cvtColor_BGR2RGB img)) as [h res]; simpl.
  destruct (Py.truthy _); reflexivity.
Qed.

Lemma findHands_config (self : HandDetector) (img : frame) (draw : bool) :
  let self' := fst (findHands self img draw) in
  mode self' = mode self /\ max_hands self' = max_hands self
  /\ detection_con self' = detection_con self /\ track_con self' = track_con self
  /\ hands self' = fst (process (hands self) (cvtColor_BGR2RGB img)).
Proof.
  unfold findHands, store_results.
  destruct (process (hands self) (cvtColor_BGR2RGB img)) as [h res]; simpl.
  destruct (Py.truthy _); simpl; auto.
Qed.

Lemma findHands_frame (self : HandDetector) (img : frame) (draw : bool) :
  snd (findHands self img draw)
  = fold_left (draw_hand draw)
      (hand_list (snd (process (hands self) (cvtColor_BGR2RGB img)))) img.
Proof.
  unfold findHands, store_results.
  destruct (process (hands self) (cvtColor_BGR2RGB img)) as [h res]; simpl.
  rewrite truthy_hand_list. case_bool_decide as Hnil; simpl; [|reflexivity].
  rewrite Hnil. reflexivity.
Qed.

(** The loop, whatever [draw] is: the frame keeps its shape, and a list
    that is returned is the accumulator followed by [positions]. *)
Lemma landmark_loop_ok (draw : bool) (lms : list mp.NormalizedLandmark) :
  forall (id : Z) (img img' : frame) (acc l : list PixelPosition),
    landmark_loop draw lms id img acc = (img', Py.Ok l) ->
    exists ps, positions Py.int_of_float (shape img) id lms = Py.Ok ps
               /\ l = acc ++ ps.
Proof.
  induction lms as [|lm rest IH]; intros id img img' acc l H; simpl in *.
  - inversion H; subst. exists []. split; [reflexivity|]. by rewrite app_nil_r.
  - destruct (pixel_coords Py.int_of_float (shape img) lm) as [[cx cy]|e];
      [|discriminate].
    destruct draw.
    + destruct (circle img (cx, cy) 8 (255, 0, 255)%Z FILLED) as [px|e];
        [|discriminate].
      apply IH in H as (ps & Hps & ->). simpl in Hps. rewrite Hps. simpl.
      eexists; split; [reflexivity|]. by rewrite <- app_assoc.
    + apply IH in H as (ps & Hps & ->). rewrite Hps. simpl.
      eexists; split; [reflexivity|]. by rewrite <- app_assoc.
Qed.

Lemma landmark_loop_shape (draw : bool) (lms : list mp.NormalizedLandmark) :
  forall (id : Z) (img : frame) (acc : list PixelPosition),
    shape (fst (landmark_loop draw lms id img acc)) = shape img.
Proof.
  induction lms as [|lm rest IH]; intros id img acc; simpl; [reflexivity|].
  destruct (pixel_coords Py.int_of_float (shape img) lm) as [[cx cy]|e];
    [|reflexivity].
  destruct draw; [|apply IH].
  destruct (circle img (cx, cy) 8 (255, 0, 255)%Z FILLED) as [px|e];
    [|reflexivity].
  rewrite IH. reflexivity.
Qed.

(** The loop with [draw] off: the frame is not touched and the outcome is
    [positions]. *)
Lemma landmark_loop_off (lms : list mp.NormalizedLandmark) :
  forall (id : Z) (img : frame) (acc : list PixelPosition),
    landmark_loop false lms id img acc
    = (img, let* ps := positions Py.int_of_float (shape img) id lms in
            Py.Ok (acc ++ ps)).
Proof.
  induction lms as [|lm rest IH]; intros id img acc; simpl.
  - by rewrite app_nil_r.
  - destruct (pixel_coords Py.int_of_float (shape img) lm) as [[cx cy]|e];
      [|reflexivity].
    rewrite IH.
    destruct (positions Py.int_of_float (shape img) (id + 1) rest) as [ps|e];
      simpl; [|reflexivity].
    by rewrite <- app_assoc.
Qed.

(** [positions] entry by entry. *)
Lemma positions_lookup (conv : Float64.float -> Py.result Z) (shp : Z * Z * Z)
    (lms : list mp.NormalizedLandmark) :
  forall (id : Z) (ps : list PixelPosition),
    positions conv shp id lms = Py.Ok ps ->
    length ps = length lms
    /\ forall (i : nat) (lm : mp.NormalizedLandmark),
         lms !! i = Some lm ->
         exists cx cy, ps !! i = Some ((id + Z.of_nat i)%Z, cx, cy)
                       /\ pixel_coords conv shp lm = Py.Ok (cx, cy).
Proof.
  induction lms as [|lm0 rest IH]; intros id ps H; simpl in H.
  - inversion H; subst. split; [reflexivity|]. intros i lm Hi. discriminate.
  - destruct (pixel_coords conv shp lm0) as [[cx cy]|e] eqn:Hpc; [|discriminate].
    destruct (positions conv shp (id + 1) rest) as [ps'|e] eqn:Hps; [|discriminate].
    simpl in H. inversion H; subst. destruct (IH _ _ Hps) as [Hlen Hent].
    split; [simpl; by rewrite Hlen|].
    intros [|i] lm Hi; simpl in Hi.
    + inversion Hi; subst. exists cx, cy. split; [|assumption].
      simpl. by rewrite Z.add_0_r.
    + destruct (Hent i lm Hi) as (cx' & cy' & Hl & Hc).
      exists cx', cy'. split; [|assumption].
      change (ps' !! i = Some ((id + Z.of_nat (S i))%Z, cx', cy')).
      rewrite Hl. do 3 f_equal. lia.
Qed.

Lemma getitem_nil {A : Type} (i : Z) : Py.getitem (@nil A) i = Py.Raise Py.IndexError.
Proof.
  unfold Py.getitem. destruct (_ && _); reflexivity.
Qed.

Lemma getitem_past_end {A : Type} (l : list A) (i : Z) :
  (Z.of_nat (length l) <= i)%Z -> Py.getitem l i = Py.Raise Py.IndexError.
Proof.
  intros Hi. unfold Py.getitem.
  destruct (i <? 0)%Z eqn:Hneg; [lia|].
  destruct (i <? Z.of_nat (length l))%Z eqn:Hlt; [lia|].
  by rewrite andb_false_r.
Qed.

Lemma getitem_ok_truthy (res : mp.SolutionOutputs) (i : Z)
    (h : mp.NormalizedLandmarkList) :
  Py.getitem (hand_list res) i = Py.Ok h ->
  Py.truthy (mp.multi_hand_landmarks res) = true.
Proof.
  intros H. rewrite truthy_hand_list. case_bool_decide as Hnil; [|reflexivity].
  rewrite Hnil, getitem_nil in H. discriminate.
Qed.

(** [findPosition] when the stored result has no hand to report. *)
Lemma findPosition_empty (self : HandDetector) (img : frame) (hand_no : Z)
    (draw : bool) :
  match results self with
  | None => True
  | Some res => hand_list res = []
  end ->
  findPosition self img hand_no draw = (self, img, Py.Ok []).
Proof.
  unfold findPosition. destruct (results self) as [res|]; [|reflexivity].
  intros Hnil. rewrite truthy_hand_list, Hnil. reflexivity.
Qed.

(** [findPosition] when the stored result has the requested hand. *)
Lemma findPosition_hand (self : HandDetector) (img : frame) (hand_no : Z)
    (draw : bool) (res : mp.SolutionOutputs) (myHand : mp.NormalizedLandmarkList) :
  results self = Some res ->
  Py.getitem (hand_list res) hand_no = Py.Ok myHand ->
  findPosition self img hand_no draw
  = (self, fst (landmark_loop draw (mp.landmark myHand) 0 img []),
     snd (landmark_loop draw (mp.landmark myHand) 0 img [])).
Proof.
  intros Hres Hget. unfold findPosition.
  rewrite Hres, (getitem_ok_truthy _ _ _ Hget), Hget.
  destruct (landmark_loop draw (mp.landmark myHand) 0 img []); reflexivity.
Qed.

(** [findPosition] when the stored result has hands, but not the
    requested one: the subscript raises. *)
Lemma findPosition_past_end (self : HandDetector) (img : frame) (hand_no : Z)
    (draw : bool) (res : mp.SolutionOutputs) :
  results self = Some res ->
  hand_list res <> [] ->
  (Z.of_nat (length (hand_list res)) <= hand_no)%Z ->
  findPosition self img hand_no draw = (self, img, Py.Raise Py.IndexError).
Proof.
  intros Hres Hne Hk. unfold findPosition.
  rewrite Hres, truthy_hand_list. case_bool_decide; [contradiction|]. simpl.
  by rewrite getitem_past_end.
Qed.

Lemma findPosition_self (self : HandDetector) (img : frame) (hand_no : Z)
    (draw : bool) :
  fst (fst (findPosition self img hand_no draw)) = self.
Proof.
  unfold findPosition. destruct (results self) as [res|]; [|reflexivity].
  destruct (Py.truthy _); [|reflexivity].
  destruct (Py.getitem _ _) as [myHand|e]; [|reflexivity].
  destruct (landmark_loop _ _ _ _ _); reflexivity.
Qed.

Lemma findPosition_shape (self : HandDetector) (img : frame) (hand_no : Z)
    (draw : bool) :
  shape (snd (fst (findPosition self img hand_no draw))) = shape img.
Proof.
  unfold findPosition. destruct (results self) as [res|]; [|reflexivity].
  destruct (Py.truthy _); [|reflexivity].
  destruct (Py.getitem _ _) as [myHand|e]; [|reflexivity].
  pose proof (landmark_loop_shape draw (mp.landmark myHand) 0 img []) as Hs.
  destruct (landmark_loop _ _ _ _ _); exact Hs.
Qed.

Lemma findPosition_off (self : HandDetector) (img : frame) (hand_no : Z) :
  findPosition self img hand_no false
  = (self, img, lookup_positions self (shape img) hand_no).
Proof.
  unfold findPosition, lookup_positions.
  destruct (results self) as [res|]; [|reflexivity].
  destruct (Py.truthy _); [|reflexivity].
  destruct (Py.getitem _ _) as [myHand|e]; [|reflexivity]. simpl.
  rewrite landmark_loop_off.
  destruct (positions _ _ _ _); reflexivity.
Qed.

Lemma findPosition_ok (self : HandDetector) (img : frame) (hand_no : Z)
    (draw : bool) (l : list PixelPosition) :
  snd (findPosition self img hand_no draw) = Py.Ok l ->
  lookup_positions self (shape img) hand_no = Py.Ok l.
Proof.
  unfold findPosition, lookup_positions.
  destruct (results self) as [res|]; [|auto].
  destruct (Py.truthy _); [|auto].
  destruct (Py.getitem _ _) as [myHand|e]; [|auto]. simpl.
  destruct (landmark_loop draw (mp.landmark myHand) 0 img []) as [img' r] eqn:Hloop.
  simpl. intros ->. apply landmark_loop_ok in Hloop as (ps & Hps & ->).
  exact Hps.
Qed.

Lemma findPosition_results_only (a b : HandDetector) (img : frame) (hand_no : Z)
    (draw : bool) :
  results a = results b ->
  snd (fst (findPosition a img hand_no draw)) = snd (fst (findPosition b img hand_no draw))
  /\ snd (findPosition a img hand_no draw) = snd (findPosition b img hand_no draw).
Proof.
  intros Hres. unfold findPosition. rewrite Hres.
  destruct (results b) as [res|]; [|auto].
  destruct (Py.truthy _); [|auto].
  destruct (Py.getitem _ _) as [myHand|e]; [|auto].
  destruct (landmark_loop _ _ _ _ _); auto.
Qed.

Lemma run_snoc (self : HandDetector) (calls : list Call) (c : Call) :
  run self (calls ++ [c]) = step (run self calls) c.
Proof. unfold run. by rewrite fold_left_app. Qed.

Lemma state_of_step (self : HandDetector) (c : Call) :
  state_of (step self c)
  = if is_findHands c then HasResult else state_of self.
Proof.
  destruct c as [img draw|img hand_no draw]; simpl.
  - unfold state_of. by rewrite findHands_results.
  - by rewrite findPosition_self.
Qed.

Lemma run_without_findHands (calls : list Call) (self : HandDetector) :
  existsb is_findHands calls = false -> run self calls = self.
Proof.
  induction calls as [|c calls IH] using rev_ind; [reflexivity|].
  rewrite existsb_app, run_snoc. simpl. rewrite orb_false_r.
  intros [Hcalls Hc]%orb_false_elim. rewrite (IH Hcalls).
  destruct c as [img draw|img hand_no draw]; [discriminate|].
  simpl. apply findPosition_self.
Qed.

(** C3: a freshly constructed detector on which [findHands] has never been
    called, whatever [findPosition] calls it has served so far, is in
    [NoResult], and [findPosition] returns the empty list for every frame,
    hand index and draw flag, leaving the detector (still as constructed)
    and the frame as they were. *)
Theorem findPosition_before_detection (mode : bool) (max_hands : Z)
    (detection_con track_con : Float64.float) (calls : list Call)
    (img : frame) (hand_no : Z) (draw : bool) :
  let fresh := init mode max_hands detection_con track_con in
  existsb is_findHands calls = false ->
  state_of (run fresh calls) = NoResult
  /\ findPosition (run fresh calls) img hand_no draw = (fresh, img, Py.Ok []).
Proof.
  intros fresh Hcalls. rewrite (run_without_findHands _ _ Hcalls).
  split; reflexivity.
Qed.

(** C5: when the model finds no hand in a frame, [findHands] hands the
    frame back with its pixel buffer unchanged, whatever the draw flag,
    and every [findPosition] that follows returns the empty list without
    raising. *)
Theorem no_hands_no_overlay (self : HandDetector) (img : frame) (draw : bool) :
  hand_list (snd (process (hands self) (cvtColor_BGR2RGB img))) = [] ->
  snd (findHands self img draw) = img
  /\ forall (img' : frame) (hand_no : Z) (draw' : bool),
       findPosition (fst (findHands self img draw)) img' hand_no draw'
       = (fst (findHands self img draw), img', Py.Ok []).
Proof.
  intros Hnil. split.
  - rewrite findHands_frame, Hnil. reflexivity.
  - intros img' hand_no draw'. apply findPosition_empty.
    rewrite findHands_results. exact Hnil.
Qed.

(** C6: a detector is in one of two states, [NoResult] exactly when no
    result is stored; it is constructed in [NoResult]; every [findHands]
    call stores the model's new result over whatever was there, hands or
    no hands, and so leaves the detector in [HasResult]; and after any
    sequence of calls the detector is in [NoResult] only if it started
    there and [findHands] was never called. *)
Theorem detector_states :
  (forall s : DetectorState, s = NoResult \/ s = HasResult)
  /\ (forall self : HandDetector, state_of self = NoResult <-> results self = None)
  /\ (forall mode max_hands detection_con track_con,
        state_of (init mode max_hands detection_con track_con) = NoResult)
  /\ (forall (self : HandDetector) (img : frame) (draw : bool),
        results (fst (findHands self img draw))
        = Some (snd (process (hands self) (cvtColor_BGR2RGB img)))
        /\ state_of (fst (findHands self img draw)) = HasResult)
  /\ (forall (self : HandDetector) (calls : list Call),
        state_of (run self calls) = NoResult
        <-> state_of self = NoResult /\ existsb is_findHands calls = false).
Proof.
  split; [intros []; auto|].
  split; [intros self; unfold state_of; destruct (results self); split; congruence|].
  split; [reflexivity|].
  split.
  - intros self img draw. unfold state_of. rewrite findHands_results. auto.
  - intros self calls. induction calls as [|c calls IH] using rev_ind.
    + simpl. tauto.
    + rewrite run_snoc, state_of_step, existsb_app. simpl.
      rewrite orb_false_r. destruct (is_findHands c).
      * rewrite orb_true_r. split; [discriminate|intros [_ ?]; discriminate].
      * rewrite orb_false_r. exact IH.
Qed.

(** C8, amended: with a deterministic landmark model, a second
    [findHands] on a frame with the same pixels as the first stores the
    same result and leaves the configuration as it was, and
    [findPosition] gives the same outcome after either call.  The frame
    object the first call was given still has those pixels when that
    call drew nothing on it, that is when its draw flag was off or no
    hand was found: then a second call on that very object stores the
    same result and [findPosition] gives the same outcome. *)
Theorem findHands_twice (self : HandDetector) (img : frame) (draw draw' : bool) :
  deterministic ->
  let once := fst (findHands self img draw) in
  let left := snd (findHands self img draw) in
  let twice := fst (findHands once img draw') in
  results twice = results once
  /\ (mode twice, max_hands twice, detection_con twice, track_con twice)
     = (mode self, max_hands self, detection_con self, track_con self)
  /\ (forall (img' : frame) (hand_no : Z) (d : bool),
        snd (findPosition twice img' hand_no d) = snd (findPosition once img' hand_no d)
        /\ snd (fst (findPosition twice img' hand_no d))
           = snd (fst (findPosition once img' hand_no d)))
  /\ (draw = false
      \/ hand_list (snd (process (hands self) (cvtColor_BGR2RGB img))) = [] ->
        left = img
        /\ results (fst (findHands once left draw')) = results once
        /\ forall (img' : frame) (hand_no : Z) (d : bool),
             snd (findPosition (fst (findHands once left draw')) img' hand_no d)
             = snd (findPosition once img' hand_no d)).
Proof.
  intros Hdet once left twice.
  assert (Hres : results twice = results once).
  { unfold twice, once. rewrite !findHands_results. f_equal.
    destruct (findHands_config self img draw) as (_ & _ & _ & _ & ->).
    apply Hdet. apply evolves_process, evolves_refl. }
  split; [exact Hres|]. split; [|split].
  - unfold twice.
    destruct (findHands_config once img draw') as (-> & -> & -> & -> & _).
    unfold once.
    destruct (findHands_config self img draw) as (-> & -> & -> & -> & _).
    reflexivity.
  - intros img' hand_no d.
    destruct (findPosition_results_only twice once img' hand_no d Hres); auto.
  - intros Hclean.
    assert (Hleft : left = img).
    { unfold left. rewrite findHands_frame.
      destruct Hclean as [->| ->]; [apply fold_draw_hand_off|reflexivity]. }
    rewrite Hleft. split; [reflexivity|]. split; [exact Hres|].
    intros img' hand_no d.
    by destruct (findPosition_results_only twice once img' hand_no d Hres).
Qed.

(** C9: [findPosition] hands the detector back exactly as it received it
    (the stored result, the four configuration fields, the model handle),
    whether it returns or raises, and never changes the frame's shape; so
    two calls between two detections that both return, on frames of the
    same shape, return the same list, and with [draw] off the outcome is
    a function of the stored result, the shape and the index alone. *)
Theorem findPosition_keeps_detector (self : HandDetector) (img : frame)
    (hand_no : Z) (draw : bool) :
  fst (fst (findPosition self img hand_no draw)) = self
  /\ shape (snd (fst (findPosition self img hand_no draw))) = shape img
  /\ (forall (img2 : frame) (draw2 : bool) (l l2 : list PixelPosition),
        shape img2 = shape img ->
        snd (findPosition self img hand_no draw) = Py.Ok l ->
        snd (findPosition (fst (fst (findPosition self img hand_no draw)))
                          img2 hand_no draw2) = Py.Ok l2 ->
        l2 = l)
  /\ (forall img2 : frame,
        shape img2 = shape img ->
        snd (findPosition self img2 hand_no false)
        = snd (findPosition self img hand_no false))
  /\ (forall l : list PixelPosition,
        snd (findPosition self img hand_no draw) = Py.Ok l ->
        snd (findPosition self (snd (fst (findPosition self img hand_no draw)))
                          hand_no false) = Py.Ok l).
Proof.
  split; [apply findPosition_self|]. split; [apply findPosition_shape|].
  split; [|split].
  - intros img2 draw2 l l2 Hshape H1 H2. rewrite findPosition_self in H2.
    apply findPosition_ok in H1, H2. rewrite Hshape in H2. congruence.
  - intros img2 Hshape. rewrite !findPosition_off. simpl. by rewrite Hshape.
  - intros l H. rewrite findPosition_off. simpl. rewrite findPosition_shape.
    by apply findPosition_ok in H.
Qed.

(** C10: with its draw flag off, [findHands] hands the frame back with the
    pixel buffer it received, and so does [findPosition], whether it
    returns or raises; [findPosition] then depends on the frame through
    its shape only: on two frames of the same shape it has the same
    outcome. *)
Theorem draw_off_keeps_frame (self : HandDetector) (img : frame) (hand_no : Z) :
  snd (findHands self img false) = img
  /\ snd (fst (findPosition self img hand_no false)) = img
  /\ (forall img2 : frame,
        shape img2 = shape img ->
        snd (findPosition self img2 hand_no false)
        = snd (findPosition self img hand_no false)).
Proof.
  split; [by rewrite findHands_frame, fold_draw_hand_off|].
  split; [by rewrite findPosition_off|].
  intros img2 Hshape. rewrite !findPosition_off. simpl. by rewrite Hshape.
Qed.

Lemma positions_total (conv : Float64.float -> Py.result Z) (shp : Z * Z * Z)
    (lms : list mp.NormalizedLandmark) :
  Forall (fun lm => Py.is_ok (pixel_coords conv shp lm) = true) lms ->
  forall id : Z, exists ps, positions conv shp id lms = Py.Ok ps.
Proof.
  induction 1 as [|lm rest Hlm _ IH]; intros id; simpl; [by eexists|].
  destruct (pixel_coords conv shp lm) as [[cx cy]|e]; [|discriminate].
  destruct (IH (id + 1)%Z) as [ps ->]. simpl. by eexists.
Qed.

(** C1, amended: for the hand that [hand_no] selects, the list that
    [findPosition] returns has one entry per landmark, in order, and entry
    [i] is [(i, int(x * w), int(y * h))] for landmark [i], where [w] and
    [h] come from the frame's shape, the products are binary64 products
    and [int] truncates toward zero; with [draw] off the call does return
    whenever every such conversion is defined.  Nothing is clamped:
    [x = 1.5] on a frame 640 wide gives [cx = 960], and [x = -0.25] gives
    [cx = -160]. *)
Theorem findPosition_truncates (self : HandDetector) (img : frame) (hand_no : Z)
    (draw : bool) :
  positions_follow Py.int_of_float self img hand_no draw
  /\ (forall (res : mp.SolutionOutputs) (myHand : mp.NormalizedLandmarkList),
        results self = Some res ->
        Py.getitem (hand_list res) hand_no = Py.Ok myHand ->
        Forall (fun lm => Py.is_ok (pixel_coords Py.int_of_float (shape img) lm) = true)
               (mp.landmark myHand) ->
        exists l, findPosition self img hand_no false = (self, img, Py.Ok l))
  /\ pixel_coords Py.int_of_float (480, 640, 3)%Z
       (mp.mkLandmark (Float64.ratio 3 2) (Float64.ratio 1 2) Float64.zero)
     = Py.Ok (960, 240)%Z
  /\ pixel_coords Py.int_of_float (480, 640, 3)%Z
       (mp.mkLandmark (Float64.ratio (-1) 4) (Float64.ratio 1 2) Float64.zero)
     = Py.Ok (-160, 240)%Z.
Proof.
  split; [|split; [|split; reflexivity]].
  - intros res myHand l Hres Hget Hl.
    rewrite (findPosition_hand _ _ _ _ _ _ Hres Hget) in Hl. simpl in Hl.
    destruct (landmark_loop draw (mp.landmark myHand) 0 img []) as [img' r] eqn:Hloop.
    simpl in Hl. subst r. apply landmark_loop_ok in Hloop as (ps & Hps & ->).
    simpl. exact (positions_lookup _ _ _ _ _ Hps).
  - intros res myHand Hres Hget Hall.
    rewrite (findPosition_hand _ _ _ _ _ _ Hres Hget), landmark_loop_off. simpl.
    destruct (positions_total _ _ _ Hall 0%Z) as [ps ->]. by eexists.
Qed.

End DetectorFacts.

(* ===================================================================== *)
(** ** Facts about the main loop *)
(* ===================================================================== *)

Section MainFacts.

Context `{B : Backend}.

Abbreviation frame := (Frame Pixels).

Lemma gt_zero_not_zero (f : Float64.float) :
  Py.float_gt_zero f = true -> Float64.is_zero f = false.
Proof. destruct f; simpl; auto; discriminate. Qed.

Lemma sub_self_not_positive (t : Float64.float) :
  Py.float_gt_zero (Float64.sub t t) = false.
Proof.
  destruct t as [[]|[]| |s m e]; try reflexivity.
  unfold Float64.sub, SFsub. rewrite Z.sub_diag. reflexivity.
Qed.

(** [fps_of] never raises once the previous timestamp is a float (or the
    initial integer [0]). *)
Lemma fps_of_eq (t : Float64.float) (p : Py.num) (pf : Float64.float) :
  Py.as_float p = Py.Ok pf ->
  fps_of t p
  = Py.Ok (if Py.float_gt_zero (Float64.sub t pf)
           then Py.Float (Float64.div (Float64.of_int 1) (Float64.sub t pf))
           else Py.Int 0).
Proof.
  intros Hp. unfold fps_of, Py.float_sub. rewrite Hp. simpl.
  destruct (Py.float_gt_zero (Float64.sub t pf)) eqn:Hgt; [|reflexivity].
  unfold Py.int_div_float. rewrite (gt_zero_not_zero _ Hgt). reflexivity.
Qed.

Lemma frames_shown_app (tr tr' : list Effect) :
  frames_shown (tr ++ tr') = frames_shown tr + frames_shown tr'.
Proof.
  induction tr as [|ev tr IH]; simpl; [reflexivity|].
  destruct ev; simpl; rewrite IH; reflexivity.
Qed.

(** One pass of the loop body that reaches [imshow]. *)
Lemma body_ok (st st' : Locals) (img : frame) (t : Float64.float) (u : unit) :
  body st img t = (st', Py.Ok u) ->
  pTime st' = Py.Float t
  /\ cTime st' = Py.Float t
  /\ detector st' = fst (findHands (detector st) img true)
  /\ exists (fps : Py.num) (label : string) (lmList : list PixelPosition)
            (img2 : frame),
       fps_of t (pTime st) = Py.Ok fps
       /\ fps_text fps = Py.Ok label
       /\ trace st'
          = trace st
            ++ match lmList with [] => [] | _ :: _ => [print_list lmList] end
            ++ [imshow "Hand Tracking"
                  (with_data img2
                     (putText img2 label (10, 70)%Z FONT_HERSHEY_COMPLEX 2
                              (255, 0, 0)%Z 3))].
Proof.
  unfold body.
  destruct (findHands (detector st) img true) as [d1 img1] eqn:Hfh.
  pose proof (findPosition_self d1 img1 0 true) as Hself.
  destruct (findPosition d1 img1 0 true) as [[d2 img2] r]. simpl in Hself. subst d2.
  destruct r as [lmList|e]; [|discriminate].
  destruct lmList as [|p lmList]; simpl;
    (destruct (fps_of t (pTime st)) as [fps|e] eqn:Hfps; [|discriminate]);
    (destruct (fps_text fps) as [label|e] eqn:Htext; [|discriminate]);
    intros H; inversion H; subst; clear H; simpl;
    (repeat split; try reflexivity).
  - exists fps, label, [], img2. repeat split; assumption.
  - exists fps, label, (p :: lmList), img2. repeat split; try assumption.
    simpl. by rewrite <- app_assoc.
Qed.

Lemma body_shows_one (st st' : Locals) (img : frame) (t : Float64.float) (u : unit) :
  body st img t = (st', Py.Ok u) ->
  frames_shown (trace st') = S (frames_shown (trace st)).
Proof.
  intros H. apply body_ok in H as (_ & _ & _ & fps & label & lmList & img2 & _ & _ & ->).
  rewrite !frames_shown_app. destruct lmList; simpl; lia.
Qed.

(** A script on which the loop is still waiting can be extended. *)
Lemma loop_app (pre : list Tick) :
  forall (st st' : Locals) (rest : list Tick),
    loop st pre = Waiting st' ->
    loop st (pre ++ rest) = loop st' rest.
Proof.
  induction pre as [|t pre IH]; intros st st' rest H; simpl in *.
  - by inversion H.
  - destruct (read t) as [img|]; [|discriminate].
    destruct (body st img (now t)) as [st1 [[]|e]]; [|discriminate].
    destruct (esc_pressed (key t)); [discriminate|]. by apply IH.
Qed.

Lemma loop_waiting_shown (pre : list Tick) :
  forall (st st' : Locals),
    loop st pre = Waiting st' ->
    frames_shown (trace st') = frames_shown (trace st) + length pre.
Proof.
  induction pre as [|t pre IH]; intros st st' H; simpl in *.
  - inversion H; subst. lia.
  - destruct (read t) as [img|]; [|discriminate].
    destruct (body st img (now t)) as [st1 [[]|e]] eqn:Hb; [|discriminate].
    destruct (esc_pressed (key t)); [discriminate|].
    rewrite (IH _ _ H), (body_shows_one _ _ _ _ _ Hb). lia.
Qed.

Lemma loop_app_waiting (pre : list Tick) :
  forall (st st' : Locals) (rest : list Tick),
    loop st (pre ++ rest) = Waiting st' ->
    exists st0, loop st pre = Waiting st0 /\ loop st0 rest = Waiting st'.
Proof.
  induction pre as [|t pre IH]; intros st st' rest H; simpl in *.
  - by exists st.
  - destruct (read t) as [img|]; [|discriminate].
    destruct (body st img (now t)) as [st1 [[]|e]]; [|discriminate].
    destruct (esc_pressed (key t)); [discriminate|]. by apply IH.
Qed.

Lemma loop_last_pTime (st st' : Locals) (pre : list Tick) (t0 : Tick) :
  loop st (pre ++ [t0]) = Waiting st' -> pTime st' = Py.Float (now t0).
Proof.
  intros H. apply loop_app_waiting in H as (st0 & _ & H). simpl in H.
  destruct (read t0) as [img|]; [|discriminate].
  destruct (body st0 img (now t0)) as [st1 [[]|e]] eqn:Hb; [|discriminate].
  destruct (esc_pressed (key t0)); [discriminate|]. inversion H; subst.
  by apply body_ok in Hb as (Hp & _).
Qed.

(** A pass of the loop body in which [findPosition] has returned: it
    gets to the FPS step, stores the current time, and ends as the
    conversion for the label ends. *)
Lemma body_reaches_fps (st : Locals) (img : frame) (t : Float64.float)
    (lmList : list PixelPosition) (pf : Float64.float) :
  snd (findPosition (fst (findHands (detector st) img true))
                    (snd (findHands (detector st) img true)) 0 true)
  = Py.Ok lmList ->
  Py.as_float (pTime st) = Py.Ok pf ->
  let fps := if Py.float_gt_zero (Float64.sub t pf)
             then Py.Float (Float64.div (Float64.of_int 1) (Float64.sub t pf))
             else Py.Int 0 in
  pTime (fst (body st img t)) = Py.Float t
  /\ cTime (fst (body st img t)) = Py.Float t
  /\ snd (body st img t) = (let* label := fps_text fps in Py.Ok tt).
Proof.
  intros Hfp Hp fps. unfold body.
  destruct (findHands (detector st) img true) as [d1 img1]. simpl in Hfp.
  destruct (findPosition d1 img1 0 true) as [[d2 img2] r]. simpl in Hfp. subst r.
  destruct lmList as [|p lmList]; simpl; rewrite (fps_of_eq t _ pf Hp); fold fps;
    destruct (fps_text fps) as [label|e]; simpl; auto.
Qed.

(** C4: in every pass of the loop that gets to the FPS step (a frame was
    read and [findPosition] returned), the value of [fps] is the binary64
    quotient [1 / elapsed], where [elapsed] is the binary64 difference of
    the current time and the stored previous timestamp, when [elapsed] is
    greater than zero, and [0] otherwise, never an exception; and the
    pass stores the current time as the previous timestamp, also when it
    then fails to turn the value into a label, so that whenever the loop
    goes on to another pass the stored timestamp is the time of the pass
    just made.  A zero difference gives [0].  For the doubles nearest to
    10.000 and 10.050 the value is 20 up to the rounding of the two
    operations: it is [20 - 80 * 2^(-48)], less than [3e-13] below 20,
    and the nearest integer is 20. *)
Theorem fps_is_binary64_reciprocal :
  (forall (t : Float64.float) (p : Py.num) (pf : Float64.float),
     Py.as_float p = Py.Ok pf ->
     fps_of t p
     = Py.Ok (if Py.float_gt_zero (Float64.sub t pf)
              then Py.Float (Float64.div (Float64.of_int 1) (Float64.sub t pf))
              else Py.Int 0))
  /\ (forall (st : Locals) (img : frame) (t : Float64.float)
             (lmList : list PixelPosition) (pf : Float64.float),
        snd (findPosition (fst (findHands (detector st) img true))
                          (snd (findHands (detector st) img true)) 0 true)
        = Py.Ok lmList ->
        Py.as_float (pTime st) = Py.Ok pf ->
        pTime (fst (body st img t)) = Py.Float t
        /\ cTime (fst (body st img t)) = Py.Float t
        /\ snd (body st img t)
           = (let* label :=
                fps_text (if Py.float_gt_zero (Float64.sub t pf)
                          then Py.Float (Float64.div (Float64.of_int 1)
                                                     (Float64.sub t pf))
                          else Py.Int 0) in
              Py.Ok tt))
  /\ (forall (st st' : Locals) (pre : list Tick) (t0 : Tick),
        loop st (pre ++ [t0]) = Waiting st' -> pTime st' = Py.Float (now t0))
  /\ (forall (st st' : Locals) (img : frame) (t : Float64.float) (u : unit),
        body st img t = (st', Py.Ok u) ->
        exists (fps : Py.num) (label : string) (tr : list Effect) (img2 : frame),
          fps_of t (pTime st) = Py.Ok fps
          /\ fps_text fps = Py.Ok label
          /\ trace st'
             = tr ++ [imshow "Hand Tracking"
                        (with_data img2
                           (putText img2 label (10, 70)%Z FONT_HERSHEY_COMPLEX 2
                                    (255, 0, 0)%Z 3))])
  /\ (forall t : Float64.float,
        fps_of t (Py.Float t) = Py.Ok (Py.Int 0)
        /\ fps_text (Py.Int 0) = Py.Ok "FPS: 0"%string)
  /\ (let fps := S754_finite false 5629499534213040 (-48) in
      fps_of (Float64.ratio 201 20) (Py.Float (Float64.of_int 10))
      = Py.Ok (Py.Float fps)
      /\ (20 * 2 ^ 48 - 5629499534213040 = 80)%Z
      /\ Float64.sub (Float64.of_int 20) fps = Float64.ratio 80 (2 ^ 48)
      /\ Float64.ltb (Float64.sub (Float64.of_int 20) fps)
                     (Float64.ratio 3 10000000000000) = true
      /\ Py.round_float fps = Py.Ok 20%Z).
Proof.
  split; [exact fps_of_eq|]. split; [exact body_reaches_fps|].
  split; [exact loop_last_pTime|]. split; [|split].
  - intros st st' img t u H.
    apply body_ok in H as (_ & _ & _ & fps & label & lmList & img2 & Hf & Ht & Htr).
    exists fps, label,
      (trace st ++ match lmList with [] => [] | _ :: _ => [print_list lmList] end),
      img2.
    repeat split; try assumption. by rewrite Htr, app_assoc.
  - intros t. split; [|reflexivity].
    rewrite (fps_of_eq t (Py.Float t) t eq_refl), sub_self_not_positive. reflexivity.
  - repeat split; vm_compute; reflexivity.
Qed.

(** C7: when [cap.read()] reports failure the loop is left at once: the
    frames before it have each been shown once, the failing pass and
    whatever the script holds after it add nothing but the failure
    message, and [main] returns after releasing the capture and
    destroying the windows; a failure on the first read shows no frame
    and leaves the detector as constructed.  Leaving the loop by the
    Escape key ends the same way, and whenever [main] returns, the last
    two things it did are [cap.release()] and [cv.destroyAllWindows()]. *)
Theorem main_exits_release :
  (forall (t : Tick) (rest : list Tick),
     read t = None ->
     main (t :: rest)
     = Returned (mkLocals (Py.Int 0) (Py.Int 0) init_default
                   [print_str "Failed to read from webcam."; cap_release;
                    destroyAllWindows]))
  /\ (forall (st st' : Locals) (pre : list Tick) (t : Tick) (rest : list Tick),
        loop st pre = Waiting st' ->
        read t = None ->
        main_from st (pre ++ t :: rest)
        = Returned (mkLocals (pTime st') (cTime st') (detector st')
                      (trace st' ++ [print_str "Failed to read from webcam.";
                                     cap_release; destroyAllWindows]))
        /\ frames_shown (trace st') = frames_shown (trace st) + length pre)
  /\ (forall (st st' st'' : Locals) (pre : list Tick) (t : Tick) (img : frame)
             (rest : list Tick),
        loop st pre = Waiting st' ->
        read t = Some img ->
        body st' img (now t) = (st'', Py.Ok tt) ->
        esc_pressed (key t) = true ->
        main_from st (pre ++ t :: rest)
        = Returned (mkLocals (pTime st'') (cTime st'') (detector st'')
                      (trace st'' ++ [cap_release; destroyAllWindows])))
  /\ (forall (st st' : Locals) (script : list Tick),
        main_from st script = Returned st' ->
        exists tr, trace st' = tr ++ [cap_release; destroyAllWindows]).
Proof.
  split; [|split; [|split]].
  - intros t rest Hread. unfold main, main_from. simpl. rewrite Hread. reflexivity.
  - intros st st' pre t rest Hpre Hread. split; [|by apply loop_waiting_shown].
    unfold main_from. rewrite (loop_app _ _ _ _ Hpre). simpl. rewrite Hread.
    unfold emit; simpl. by rewrite <- !app_assoc.
  - intros st st' st'' pre t img rest Hpre Hread Hbody Hesc.
    unfold main_from. rewrite (loop_app _ _ _ _ Hpre). simpl.
    rewrite Hread, Hbody, Hesc. unfold emit; simpl. by rewrite <- !app_assoc.
  - intros st st' script H. unfold main_from in H.
    destruct (loop st script) as [st1|e st1|st1]; try discriminate.
    inversion H; subst. exists (trace st1). simpl. by rewrite <- app_assoc.
Qed.

End MainFacts.

(* ===================================================================== *)
(** ** The module run on the test double *)
(* ===================================================================== *)

Import Fixture.

Lemma fixture_deterministic : deterministic (B := backend).
Proof. intros h h' img _. reflexivity. Qed.

(** The inputs used below are the doubles they are meant to be:
    [513/1024] and [10] are exact, and [ratio 201 20] is [m * 2^(-49)]
    with [|m * 2^(-49) - 10.05| <= 2^(-50)], half a unit in the last
    place, so it is the double nearest to 10.05. *)
Lemma fixture_doubles :
  Float64.ratio 513 1024 = S754_finite false 4512395720392704 (-53)
  /\ (1024 * 4512395720392704 = 513 * 2 ^ 53)%Z
  /\ Float64.of_int 10 = S754_finite false 5629499534213120 (-49)
  /\ (5629499534213120 = 10 * 2 ^ 49)%Z
  /\ Float64.ratio 201 20 = S754_finite false 5657647031884186 (-49)
  /\ (2 * Z.abs (20 * 5657647031884186 - 201 * 2 ^ 49) <= 20)%Z.
Proof. repeat split; vm_compute; congruence. Qed.

(** C1 as stated fails.  A landmark at [x = 513/1024] on a frame 640
    wide is at column 320.625: rounding gives 321, and [findPosition]
    returns 320. *)
Lemma rounding_claim_fails :
  ~ positions_follow Py.round_float
      (fst (detected [off_centre])) (snd (detected [off_centre])) 0 false.
Proof.
  intros H.
  destruct (H (mp.mkOutputs (Some [off_centre])) off_centre [(0, 320, 240)%Z]
              eq_refl eq_refl eq_refl) as [_ Hent].
  destruct (Hent 0%nat (lm (Float64.ratio 513 1024) half) eq_refl)
    as (cx & cy & Hl & Hc).
  vm_compute in Hl. vm_compute in Hc. congruence.
Qed.

Lemma findPosition_truncates_witness :
  snd (findPosition (fst (detected [off_centre])) (snd (detected [off_centre])) 0 true)
  = Py.Ok [(0, 320, 240)%Z]
  /\ (exists cx cy,
        [(0, 320, 240)%Z] !! 0%nat = Some (0%Z, cx, cy)
        /\ pixel_coords Py.int_of_float (480, 640, 3)%Z
             (lm (Float64.ratio 513 1024) half) = Py.Ok (cx, cy))
  /\ exists l,
       findPosition (fst (detected [off_centre])) (snd (detected [off_centre])) 0 false
       = (fst (detected [off_centre]), snd (detected [off_centre]), Py.Ok l).
Proof.
  split; [reflexivity|].
  destruct (findPosition_truncates
              (fst (detected [off_centre])) (snd (detected [off_centre])) 0 true)
    as (H & Htotal & _).
  split.
  - destruct (H (mp.mkOutputs (Some [off_centre])) off_centre [(0, 320, 240)%Z]
                eq_refl eq_refl eq_refl) as [_ Hent].
    exact (Hent 0%nat (lm (Float64.ratio 513 1024) half) eq_refl).
  - apply (Htotal (mp.mkOutputs (Some [off_centre])) off_centre eq_refl eq_refl).
    repeat constructor.
Defined.

(** C2: the stored result holds one hand and [findPosition] is asked for
    hand 1.  The subscript [multi_hand_landmarks[1]] raises [IndexError];
    hand 0 of the same result is reported. *)
Theorem findPosition_missing_hand_raises :
  length (hand_list (mp.mkOutputs (Some [centred]))) = 1%nat
  /\ results (fst (detected [centred])) = Some (mp.mkOutputs (Some [centred]))
  /\ snd (findPosition (fst (detected [centred])) (snd (detected [centred])) 1 true)
     = Py.Raise Py.IndexError
  /\ snd (findPosition (fst (detected [centred])) (snd (detected [centred])) 1 false)
     = Py.Raise Py.IndexError
  /\ snd (findPosition (fst (detected [centred])) (snd (detected [centred])) 0 true)
     = Py.Ok [(0, 320, 240)%Z].
Proof. repeat split. Qed.

Lemma fps_is_binary64_reciprocal_witness :
  Py.as_float (Py.Int 0) = Py.Ok Float64.zero
  /\ fps_of (Float64.of_int 10) (Py.Int 0)
     = Py.Ok (Py.Float (Float64.ratio 1 10))
  /\ snd (findPosition (fst (findHands (detector main_init) (vga [centred]) true))
                       (snd (findHands (detector main_init) (vga [centred]) true))
                       0 true)
     = Py.Ok [(0, 320, 240)%Z]
  /\ pTime (fst (body main_init (vga [centred]) (Float64.of_int 10)))
     = Py.Float (Float64.of_int 10)
  /\ snd (body main_init (vga [centred]) (Float64.of_int 10)) = Py.Ok tt
  /\ pTime (fst (body main_init (vga []) (S754_finite false 1 (-1074))))
     = Py.Float (S754_finite false 1 (-1074))
  /\ snd (body main_init (vga []) (S754_finite false 1 (-1074)))
     = Py.Raise Py.OverflowError
  /\ loop main_init ([] ++ [tick [centred] (Float64.of_int 10) (-1)])
     = Waiting (fst (body main_init (vga [centred]) (Float64.of_int 10)))
  /\ exists label : string,
       fps_text (Py.Float (Float64.ratio 1 10)) = Py.Ok label.
Proof.
  destruct (fps_is_binary64_reciprocal (B := backend))
    as (Hfps & Hreach & Hloop & Hshow & _).
  split; [reflexivity|]. split.
  { rewrite (Hfps (Float64.of_int 10) (Py.Int 0) Float64.zero eq_refl). reflexivity. }
  split; [reflexivity|].
  destruct (Hreach main_init (vga [centred]) (Float64.of_int 10)
              [(0, 320, 240)%Z] Float64.zero eq_refl eq_refl) as (Hp & _ & Hr).
  split; [exact Hp|]. split; [rewrite Hr; reflexivity|].
  destruct (Hreach main_init (vga []) (S754_finite false 1 (-1074))
              [] Float64.zero eq_refl eq_refl) as (Hp' & _ & Hr').
  split; [exact Hp'|]. split; [rewrite Hr'; reflexivity|].
  split; [reflexivity|].
  destruct (Hshow main_init _ (vga [centred]) (Float64.of_int 10) tt eq_refl)
    as (fps & label & tr & img2 & Hf & Ht & _).
  exists label. vm_compute in Hf. inversion Hf; subst. exact Ht.
Defined.

Lemma findPosition_before_detection_witness :
  existsb is_findHands
    [call_findPosition (vga [centred]) 1 true; call_findPosition (vga []) (-3) false]
  = false
  /\ findPosition
       (run init_default
          [call_findPosition (vga [centred]) 1 true;
           call_findPosition (vga []) (-3) false])
       (vga [centred]) 7 true
     = (init_default, vga [centred], Py.Ok []).
Proof.
  split; [reflexivity|].
  exact (proj2 (findPosition_before_detection false 2 default_con default_con
                  [call_findPosition (vga [centred]) 1 true;
                   call_findPosition (vga []) (-3) false]
                  (vga [centred]) 7 true eq_refl)).
Defined.

Lemma no_hands_no_overlay_witness :
  hand_list (snd (process (hands init_default) (cvtColor_BGR2RGB (vga [])))) = []
  /\ snd (findHands init_default (vga []) true) = vga []
  /\ forall (img' : Frame Pixels) (hand_no : Z) (draw' : bool),
       findPosition (fst (findHands init_default (vga []) true)) img' hand_no draw'
       = (fst (findHands init_default (vga []) true), img', Py.Ok []).
Proof.
  split; [reflexivity|].
  exact (no_hands_no_overlay init_default (vga []) true eq_refl).
Defined.

Lemma detector_states_witness :
  state_of (run init_default
              [call_findPosition (vga []) 0 true; call_findPosition (vga []) 5 false])
  = NoResult
  /\ state_of (run init_default
                 [call_findPosition (vga []) 0 true; call_findHands (vga []) true;
                  call_findPosition (vga []) 0 true])
     = HasResult.
Proof.
  destruct (detector_states (B := backend)) as (_ & _ & _ & _ & Hrun).
  split.
  - apply Hrun. split; reflexivity.
  - destruct (state_of (run init_default
                 [call_findPosition (vga []) 0 true; call_findHands (vga []) true;
                  call_findPosition (vga []) 0 true])) eqn:Hs; [|reflexivity].
    apply Hrun in Hs as [_ Hs]. discriminate.
Defined.

Lemma main_exits_release_witness :
  loop main_init [tick [centred] (Float64.of_int 10) (-1)]
  = Waiting (fst (body main_init (vga [centred]) (Float64.of_int 10)))
  /\ read no_frame = None
  /\ esc_pressed 27 = true
  /\ main [no_frame; tick [centred] (Float64.of_int 10) (-1)]
     = Returned (mkLocals (Py.Int 0) (Py.Int 0) init_default
                   [print_str "Failed to read from webcam."; cap_release;
                    destroyAllWindows])
  /\ (exists st',
        main [tick [centred] (Float64.of_int 10) (-1); no_frame;
              tick [centred] (Float64.ratio 201 20) (-1)]
        = Returned st'
        /\ frames_shown (trace st') = 1%nat
        /\ exists tr, trace st' = tr ++ [cap_release; destroyAllWindows])
  /\ (exists st',
        main [tick [centred] (Float64.of_int 10) 27;
              tick [centred] (Float64.ratio 201 20) (-1)]
        = Returned st'
        /\ frames_shown (trace st') = 1%nat).
Proof.
  destruct (main_exits_release (B := backend)) as (Hfirst & Hfail & Hesc & Hret).
  split; [reflexivity|]. split; [reflexivity|]. split; [reflexivity|].
  split; [exact (Hfirst no_frame _ eq_refl)|]. split.
  - destruct (Hfail main_init _ [tick [centred] (Float64.of_int 10) (-1)] no_frame
                [tick [centred] (Float64.ratio 201 20) (-1)] eq_refl eq_refl)
      as [Hmain _].
    eexists. split; [exact Hmain|]. split; [reflexivity|].
    exact (Hret _ _ _ Hmain).
  - eexists. split.
    + exact (Hesc main_init main_init _ [] (tick [centred] (Float64.of_int 10) 27)
               (vga [centred]) [tick [centred] (Float64.ratio 201 20) (-1)]
               eq_refl eq_refl eq_refl eq_refl).
    + reflexivity.
Defined.

(** C8 as stated fails.  With drawing on, as [main] calls it, the first
    [findHands] draws the skeleton on the frame in place, and the second
    call on the same frame object sees the drawing: a deterministic
    model that the drawing puts off reports the hand the first time and
    none the second. *)
Lemma same_frame_claim_fails :
  ~ (deterministic (B := shy_backend) ->
     same_frame_same_hands (B := shy_backend) init_default (vga [centred]) true).
Proof.
  intros H.
  assert (Hdet : deterministic (B := shy_backend)) by (intros h h' img _; reflexivity).
  specialize (H Hdet). vm_compute in H. discriminate.
Qed.

Lemma findHands_twice_witness :
  deterministic (B := backend)
  /\ results (fst (findHands (fst (detected [centred])) (vga [centred]) true))
     = results (fst (detected [centred]))
  /\ snd (findPosition (fst (findHands (fst (detected [centred])) (vga [centred]) true))
            (vga [centred]) 0 false)
     = snd (findPosition (fst (detected [centred])) (vga [centred]) 0 false)
  /\ results (fst (findHands (fst (findHands init_default (vga [centred]) false))
                     (snd (findHands init_default (vga [centred]) false)) true))
     = results (fst (findHands init_default (vga [centred]) false))
  /\ hand_list (snd (process (hands init_default) (cvtColor_BGR2RGB (vga [])))) = []
  /\ results (fst (findHands (fst (findHands init_default (vga []) true))
                     (snd (findHands init_default (vga []) true)) true))
     = results (fst (findHands init_default (vga []) true)).
Proof.
  split; [exact fixture_deterministic|].
  destruct (findHands_twice init_default (vga [centred]) true true
              fixture_deterministic) as (Hres & _ & Hpos & _).
  split; [exact Hres|]. split; [exact (proj1 (Hpos (vga [centred]) 0%Z false))|].
  destruct (findHands_twice init_default (vga [centred]) false true
              fixture_deterministic) as (_ & _ & _ & Hsame).
  split; [exact (proj1 (proj2 (Hsame (or_introl eq_refl))))|].
  split; [reflexivity|].
  destruct (findHands_twice init_default (vga []) true true
              fixture_deterministic) as (_ & _ & _ & Hnone).
  exact (proj1 (proj2 (Hnone (or_intror eq_refl)))).
Defined.

Lemma findPosition_keeps_detector_witness :
  snd (findPosition (fst (detected [centred])) (snd (detected [centred])) 0 true)
  = Py.Ok [(0, 320, 240)%Z]
  /\ shape (vga []) = shape (snd (detected [centred]))
  /\ snd (findPosition (fst (detected [centred])) (vga []) 0 false)
     = snd (findPosition (fst (detected [centred])) (snd (detected [centred])) 0 false)
  /\ snd (findPosition (fst (detected [centred])) (vga []) 0 true)
     = Py.Ok [(0, 320, 240)%Z]
  /\ snd (findPosition (fst (detected [centred]))
            (snd (fst (findPosition (fst (detected [centred]))
                         (snd (detected [centred])) 0 true)))
            0 false)
     = Py.Ok [(0, 320, 240)%Z].
Proof.
  split; [reflexivity|]. split; [reflexivity|].
  destruct (findPosition_keeps_detector
              (fst (detected [centred])) (snd (detected [centred])) 0 true)
    as (_ & _ & Hsame & Hshape & Hagain).
  split; [exact (Hshape (vga []) eq_refl)|]. split.
  - destruct (snd (findPosition (fst (detected [centred])) (vga []) 0 true))
      as [l2|e] eqn:H2; [|discriminate].
    f_equal. exact (Hsame (vga []) true _ l2 eq_refl eq_refl H2).
  - exact (Hagain _ eq_refl).
Defined.

Lemma draw_off_keeps_frame_witness :
  shape (vga []) = shape (vga [centred])
  /\ snd (findPosition (fst (detected [centred])) (vga []) 0 false)
     = snd (findPosition (fst (detected [centred])) (vga [centred]) 0 false).
Proof.
  split; [reflexivity|].
  destruct (draw_off_keeps_frame (fst (detected [centred])) (vga [centred]) 0)
    as (_ & _ & Hshape).
  exact (Hshape (vga []) eq_refl).
Defined.

(** Outside the two [break]s, an exception that leaves the loop body
    leaves [main] as well, before the release: here [int] of a NaN
    coordinate raises [ValueError] in the first pass. *)
Example uncaught_exception_skips_release :
  main [tick [unplaced] (Float64.of_int 10) (-1); no_frame]
  = Crashed Py.ValueError
      (mkLocals (Py.Int 0) (Py.Int 0) (fst (detected [unplaced])) []).
Proof. reflexivity. Qed.

(* ===================================================================== *)
(** ** Further properties of the detector *)
(* ===================================================================== *)

Section DetectorProperties.

Context `{B : Backend}.

Abbreviation frame := (Frame Pixels).

Lemma getitem_wraps {A : Type} (l : list A) (i : Z) :
  (- Z.of_nat (length l) <= i < 0)%Z ->
  Py.getitem l i = Py.getitem l (Z.of_nat (length l) + i).
Proof.
  intros Hi. unfold Py.getitem.
  destruct (Z.ltb_spec i 0) as [_|?]; [|lia].
  destruct (Z.ltb_spec (Z.of_nat (length l) + i) 0) as [?|_]; [lia|].
  reflexivity.
Qed.

Lemma getitem_before_start {A : Type} (l : list A) (i : Z) :
  (i < - Z.of_nat (length l))%Z -> Py.getitem l i = Py.Raise Py.IndexError.
Proof.
  intros Hi. unfold Py.getitem.
  destruct (Z.ltb_spec i 0) as [_|?]; [|lia].
  destruct (Z.leb_spec 0 (Z.of_nat (length l) + i)) as [?|_]; [lia|].
  reflexivity.
Qed.

Lemma getitem_in_range {A : Type} (l : list A) (i : Z) :
  (0 <= i < Z.of_nat (length l))%Z -> exists a, Py.getitem l i = Py.Ok a.
Proof.
  intros Hi. unfold Py.getitem.
  destruct (Z.ltb_spec i 0) as [?|_]; [lia|].
  destruct (Z.leb_spec 0 i) as [_|?]; [|lia].
  destruct (Z.ltb_spec i (Z.of_nat (length l))) as [_|?]; [|lia]. simpl.
  destruct (l !! Z.to_nat i) as [a|] eqn:Hl; [by eexists|].
  apply lookup_ge_None in Hl. lia.
Qed.

Lemma findPosition_index (self : HandDetector) (img : frame) (i j : Z)
    (draw : bool) (res : mp.SolutionOutputs) :
  results self = Some res ->
  Py.getitem (hand_list res) i = Py.getitem (hand_list res) j ->
  findPosition self img i draw = findPosition self img j draw.
Proof.
  intros Hres Hget. unfold findPosition. rewrite Hres, Hget. reflexivity.
Qed.

(** X1: a negative hand index counts from the last hand, as a Python
    subscript does: with [n] hands stored, an index from [-n] to [-1]
    makes [findPosition] behave as for that index plus [n] (so [-1] is
    the last hand), and with at least one hand stored an index below
    [-n] raises [IndexError]. *)
Theorem findPosition_negative_index (self : HandDetector) (img : frame)
    (hand_no : Z) (draw : bool) (res : mp.SolutionOutputs) :
  results self = Some res ->
  let n := Z.of_nat (length (hand_list res)) in
  ((- n <= hand_no < 0)%Z ->
     findPosition self img hand_no draw = findPosition self img (n + hand_no) draw)
  /\ ((hand_no < - n)%Z -> hand_list res <> [] ->
        findPosition self img hand_no draw = (self, img, Py.Raise Py.IndexError)).
Proof.
  intros Hres n. split.
  - intros Hi. apply (findPosition_index _ _ _ _ _ _ Hres). by apply getitem_wraps.
  - intros Hi Hne. unfold findPosition.
    rewrite Hres, truthy_hand_list. case_bool_decide; [contradiction|]. simpl.
    by rewrite getitem_before_start.
Qed.

(** X2: what an empty list from [findPosition] means: it is returned
    exactly when no result is stored, or the stored result has no hand,
    or the selected hand has no landmark. *)
Theorem findPosition_empty_iff (self : HandDetector) (img : frame)
    (hand_no : Z) (draw : bool) :
  snd (findPosition self img hand_no draw) = Py.Ok []
  <-> match results self with
      | None => True
      | Some res =>
          hand_list res = []
          \/ exists myHand, Py.getitem (hand_list res) hand_no = Py.Ok myHand
                            /\ mp.landmark myHand = []
      end.
Proof.
  destruct (results self) as [res|] eqn:Hres.
  - destruct (hand_list res) as [|h0 hs] eqn:Hl.
    + split; [auto|]. intros _.
      rewrite (findPosition_empty self img hand_no draw); [reflexivity|].
      by rewrite Hres.
    + split.
      * intros H. right. unfold findPosition in H.
        rewrite Hres, truthy_hand_list, Hl in H. simpl in H.
        rewrite <- Hl in H.
        destruct (Py.getitem (hand_list res) hand_no) as [myHand|e] eqn:Hget;
          [|discriminate].
        exists myHand. split; [rewrite <- Hl; exact Hget|].
        destruct (landmark_loop draw (mp.landmark myHand) 0 img []) as [img' r] eqn:Hloop.
        simpl in H. subst r. apply landmark_loop_ok in Hloop as (ps & Hps & Heq).
        simpl in Heq. subst ps.
        apply positions_lookup in Hps as [Hlen _].
        destruct (mp.landmark myHand); [reflexivity|discriminate].
      * intros [Hnil|(myHand & Hget & Hlms)]; [discriminate|].
        rewrite <- Hl in Hget.
        rewrite (findPosition_hand _ _ _ _ _ _ Hres Hget), Hlms. reflexivity.
  - split; [auto|]. intros _.
    rewrite (findPosition_empty self img hand_no draw); [reflexivity|].
    by rewrite Hres.
Qed.

Lemma landmark_loop_dots (lms : list mp.NormalizedLandmark) :
  forall (id : Z) (img img' : frame) (acc l : list PixelPosition),
    landmark_loop true lms id img acc = (img', Py.Ok l) ->
    exists ps, l = acc ++ ps /\ draw_dots img ps = Py.Ok img'.
Proof.
  induction lms as [|lm rest IH]; intros id img img' acc l H; simpl in H.
  - inversion H; subst. exists []. split; [by rewrite app_nil_r|reflexivity].
  - destruct (pixel_coords Py.int_of_float (shape img) lm) as [[cx cy]|e];
      [|discriminate].
    destruct (circle img (cx, cy) 8 (255, 0, 255)%Z FILLED) as [px|e] eqn:Hc;
      [|discriminate].
    apply IH in H as (ps & -> & Hdots).
    exists ((id, cx, cy) :: ps). split; [by rewrite <- app_assoc|].
    simpl. rewrite Hc. exact Hdots.
Qed.

(** X3: with [draw] on, the markers match the list: when [findPosition]
    returns a list, the frame it leaves is the frame it received with one
    filled circle of radius 8 drawn at [(cx, cy)] for each returned entry
    [(id, cx, cy)], in the order of the list, and nothing else. *)
Theorem findPosition_draws_returned (self : HandDetector) (img img' : frame)
    (hand_no : Z) (l : list PixelPosition) :
  findPosition self img hand_no true = (self, img', Py.Ok l) ->
  draw_dots img l = Py.Ok img'.
Proof.
  unfold findPosition. destruct (results self) as [res|].
  - destruct (Py.truthy _).
    + destruct (Py.getitem _ _) as [myHand|e]; [|intros H; inversion H].
      destruct (landmark_loop true (mp.landmark myHand) 0 img []) as [img1 r] eqn:Hloop.
      intros H. inversion H; subst.
      apply landmark_loop_dots in Hloop as (ps & Heq & Hdots).
      simpl in Heq. by subst.
    + intros H. by inversion H.
  - intros H. by inversion H.
Qed.

(** X5: no sequence of [findHands] and [findPosition] calls changes the
    four configuration fields of a detector. *)
Theorem run_keeps_config (self : HandDetector) (calls : list Call) :
  config (run self calls) = config self.
Proof.
  induction calls as [|c calls IH] using rev_ind; [reflexivity|].
  rewrite run_snoc, <- IH. destruct c as [img draw|img hand_no draw]; simpl.
  - unfold config.
    destruct (findHands_config (run self calls) img draw) as (-> & -> & -> & -> & _).
    reflexivity.
  - by rewrite findPosition_self.
Qed.

(** X6: the stored result is that of the latest [findHands] call alone:
    after any calls, a [findHands] on [img] and then any number of
    [findPosition] calls, the detector holds what the model reported for
    [img], whatever was stored before. *)
Theorem run_latest_result (self : HandDetector) (calls tail : list Call)
    (img : frame) (draw : bool) :
  existsb is_findHands tail = false ->
  let before := run self calls in
  let after := run self (calls ++ call_findHands img draw :: tail) in
  after = fst (findHands before img draw)
  /\ results after = Some (snd (process (hands before) (cvtColor_BGR2RGB img))).
Proof.
  intros Htail before after.
  assert (Hafter : after = fst (findHands before img draw)).
  { unfold after, before, run. rewrite fold_left_app. simpl.
    apply (run_without_findHands tail _ Htail). }
  rewrite Hafter. split; [reflexivity|apply findHands_results].
Qed.

Lemma binary_round_aux_sign (s : bool) (mx ex : Z) (lx : location) :
  has_sign s (binary_round_aux Float64.prec Float64.emax s mx ex lx).
Proof.
  unfold binary_round_aux.
  destruct (shr_fexp Float64.prec Float64.emax mx ex lx) as [mrs' e'].
  destruct (shr_fexp Float64.prec Float64.emax _ e' loc_Exact) as [mrs'' e''].
  destruct (shr_m mrs''); simpl; [reflexivity| |exact I].
  destruct (Z.leb _ _); reflexivity.
Qed.

Lemma of_int_sign (z : Z) : (0 <= z)%Z -> has_sign false (Float64.of_int z).
Proof.
  intros Hz. unfold Float64.of_int, binary_normalize.
  destruct z as [|m|m]; [reflexivity| |lia].
  unfold binary_round.
  destruct (shl_align m 0 _) as [mz ez]. apply binary_round_aux_sign.
Qed.

Lemma int_of_float_nonneg (f : Float64.float) (n : Z) :
  match f with S754_finite true _ _ => False | _ => True end ->
  Py.int_of_float f = Py.Ok n -> (0 <= n)%Z.
Proof.
  destruct f as [s|s| |[] m e]; simpl; intros Hf H; try discriminate;
    try contradiction; inversion H; subst; [lia|].
  apply Z.shiftl_nonneg. lia.
Qed.

Lemma mul_not_below_zero (f g : Float64.float) :
  not_below_zero f -> has_sign false g ->
  match Float64.mul f g with S754_finite true _ _ => False | _ => True end.
Proof.
  unfold not_below_zero, Float64.mul, SFmul.
  destruct f as [[]|[]| |[] mf ef], g as [sg|sg| |sg mg eg]; simpl;
    intros Hf Hg; subst; try discriminate; try exact I.
  pose proof (binary_round_aux_sign false (Zpos (mf * mg)) (ef + eg) loc_Exact) as Hs.
  destruct (binary_round_aux _ _ _ _ _ _) as [| | |[] ? ?]; simpl in Hs;
    try exact I; discriminate.
Qed.

Lemma scaled_nonneg (f fx : Float64.float) (z n : Z) :
  (0 <= z)%Z -> not_below_zero f ->
  Py.float_mul_int f z = Py.Ok fx -> Py.int_of_float fx = Py.Ok n -> (0 <= n)%Z.
Proof.
  intros Hz Hf Hmul Hint. unfold Py.float_mul_int, Py.float_of_int in Hmul.
  pose proof (mul_not_below_zero f (Float64.of_int z) Hf (of_int_sign z Hz)) as Hm.
  destruct (Float64.of_int z); simpl in Hmul; try discriminate;
    inversion Hmul; subst; exact (int_of_float_nonneg _ _ Hm Hint).
Qed.

Lemma pixel_coords_nonneg (h w c : Z) (lm : mp.NormalizedLandmark) (cx cy : Z) :
  (0 <= w)%Z -> (0 <= h)%Z ->
  not_below_zero (mp.x lm) -> not_below_zero (mp.y lm) ->
  pixel_coords Py.int_of_float (h, w, c) lm = Py.Ok (cx, cy) ->
  (0 <= cx /\ 0 <= cy)%Z.
Proof.
  intros Hw Hh Hx Hy. unfold pixel_coords.
  destruct (Py.float_mul_int (mp.x lm) w) as [fx|e] eqn:Hfx; [|discriminate].
  simpl. destruct (Py.int_of_float fx) as [cx'|e] eqn:Hcx; [|discriminate].
  simpl. destruct (Py.float_mul_int (mp.y lm) h) as [fy|e] eqn:Hfy; [|discriminate].
  simpl. destruct (Py.int_of_float fy) as [cy'|e] eqn:Hcy; [|discriminate].
  simpl. intros H. inversion H; subst. split.
  - exact (scaled_nonneg _ _ _ _ Hw Hx Hfx Hcx).
  - exact (scaled_nonneg _ _ _ _ Hh Hy Hfy Hcy).
Qed.

Lemma positions_nonneg (h w c : Z) (lms : list mp.NormalizedLandmark) :
  (0 <= w)%Z -> (0 <= h)%Z ->
  Forall (fun lm => not_below_zero (mp.x lm) /\ not_below_zero (mp.y lm)) lms ->
  forall (id : Z) (ps : list PixelPosition),
    (0 <= id)%Z ->
    positions Py.int_of_float (h, w, c) id lms = Py.Ok ps ->
    Forall (fun p : PixelPosition => (0 <= p.1.1 /\ 0 <= p.1.2 /\ 0 <= p.2)%Z) ps.
Proof.
  intros Hw Hh. induction 1 as [|lm rest [Hx Hy] _ IH]; intros id ps Hid H.
  - inversion H. constructor.
  - cbn [positions] in H.
    destruct (pixel_coords Py.int_of_float (h, w, c) lm) as [[cx cy]|e] eqn:Hpc;
      [|discriminate].
    destruct (positions Py.int_of_float (h, w, c) (id + 1) rest) as [ps'|e] eqn:Hps;
      [|discriminate].
    simpl in H. inversion H; subst.
    destruct (pixel_coords_nonneg _ _ _ _ _ _ Hw Hh Hx Hy Hpc) as [Hcx Hcy].
    constructor; [simpl; lia|]. apply (IH (id + 1)%Z); [lia|exact Hps].
Qed.

(** X4: pixel coordinates are never negative unless a normalized
    coordinate is: on a frame whose width and height are not negative, if
    no landmark of the selected hand has [x < 0] or [y < 0], every entry
    [(id, cx, cy)] that [findPosition] returns has [id], [cx] and [cy]
    at least [0]. *)
Theorem findPosition_nonneg (self : HandDetector) (img : frame) (hand_no : Z)
    (draw : bool) (res : mp.SolutionOutputs) (myHand : mp.NormalizedLandmarkList)
    (l : list PixelPosition) :
  (0 <= (shape img).1.1)%Z -> (0 <= (shape img).1.2)%Z ->
  results self = Some res ->
  Py.getitem (hand_list res) hand_no = Py.Ok myHand ->
  Forall (fun lm => not_below_zero (mp.x lm) /\ not_below_zero (mp.y lm))
         (mp.landmark myHand) ->
  snd (findPosition self img hand_no draw) = Py.Ok l ->
  Forall (fun p : PixelPosition => (0 <= p.1.1 /\ 0 <= p.1.2 /\ 0 <= p.2)%Z) l.
Proof.
  intros Hh Hw Hres Hget Hall Hl.
  apply findPosition_ok in Hl. unfold lookup_positions in Hl.
  rewrite Hres, (getitem_ok_truthy _ _ _ Hget), Hget in Hl. simpl in Hl.
  destruct (shape img) as [[h w] c]. simpl in Hh, Hw.
  by apply (positions_nonneg h w c _ Hw Hh Hall 0%Z).
Qed.

Lemma scaled_finite (f fx : Float64.float) (z n : Z) :
  Py.float_mul_int f z = Py.Ok fx -> Py.int_of_float fx = Py.Ok n -> finite f.
Proof.
  unfold Py.float_mul_int, Py.float_of_int, Float64.mul, SFmul.
  destruct f as [sf|sf| |sf mf ef]; simpl; try exact (fun _ _ => I);
    destruct (Float64.of_int z) as [sg|sg| |sg mg eg]; simpl;
    intros Hmul Hint; inversion Hmul; subst; discriminate.
Qed.

Lemma pixel_coords_finite (shp : Z * Z * Z) (lm : mp.NormalizedLandmark)
    (cx cy : Z) :
  pixel_coords Py.int_of_float shp lm = Py.Ok (cx, cy) ->
  finite (mp.x lm) /\ finite (mp.y lm).
Proof.
  destruct shp as [[h w] c]. unfold pixel_coords.
  destruct (Py.float_mul_int (mp.x lm) w) as [fx|e] eqn:Hfx; [|discriminate].
  simpl. destruct (Py.int_of_float fx) as [cx'|e] eqn:Hcx; [|discriminate].
  simpl. destruct (Py.float_mul_int (mp.y lm) h) as [fy|e] eqn:Hfy; [|discriminate].
  simpl. destruct (Py.int_of_float fy) as [cy'|e] eqn:Hcy; [|discriminate].
  intros _. split; [exact (scaled_finite _ _ _ _ Hfx Hcx)|exact (scaled_finite _ _ _ _ Hfy Hcy)].
Qed.

(** X13: [findPosition] returns all of a hand or nothing: when it returns
    a list for the selected hand, every landmark of that hand, not only
    the listed ones, has finite [x] and [y]; a single NaN or infinite
    coordinate makes the whole call raise instead. *)
Theorem findPosition_all_or_nothing (self : HandDetector) (img : frame)
    (hand_no : Z) (draw : bool) (res : mp.SolutionOutputs)
    (myHand : mp.NormalizedLandmarkList) :
  results self = Some res ->
  Py.getitem (hand_list res) hand_no = Py.Ok myHand ->
  (forall l, snd (findPosition self img hand_no draw) = Py.Ok l ->
     Forall (fun lm => finite (mp.x lm) /\ finite (mp.y lm)) (mp.landmark myHand))
  /\ (Exists (fun lm => ~ (finite (mp.x lm) /\ finite (mp.y lm))) (mp.landmark myHand) ->
        exists e, snd (findPosition self img hand_no draw) = Py.Raise e).
Proof.
  intros Hres Hget.
  assert (Hok : forall l, snd (findPosition self img hand_no draw) = Py.Ok l ->
            Forall (fun lm => finite (mp.x lm) /\ finite (mp.y lm))
                   (mp.landmark myHand)).
  { intros l Hl. apply findPosition_ok in Hl. unfold lookup_positions in Hl.
    rewrite Hres, (getitem_ok_truthy _ _ _ Hget), Hget in Hl. simpl in Hl.
    apply positions_lookup in Hl as [_ Hent].
    apply Forall_lookup. intros i lm Hi.
    destruct (Hent i lm Hi) as (cx & cy & _ & Hpc).
    exact (pixel_coords_finite _ _ _ _ Hpc). }
  split; [exact Hok|]. intros Hex.
  destruct (snd (findPosition self img hand_no draw)) as [l|e] eqn:Hr; [|by eexists].
  exfalso. specialize (Hok l eq_refl).
  apply Exists_exists in Hex as (lm & Hin & Hbad).
  rewrite Forall_forall in Hok. exact (Hbad (Hok lm Hin)).
Qed.

End DetectorProperties.

(* ===================================================================== *)
(** ** Further properties of the main loop *)
(* ===================================================================== *)

Section MainProperties.

Context `{B : Backend}.

Abbreviation frame := (Frame Pixels).

Lemma float_mul_int_raises (f : Float64.float) (z : Z) (e : Py.exn) :
  Py.float_mul_int f z = Py.Raise e -> e = Py.OverflowError.
Proof.
  unfold Py.float_mul_int, Py.float_of_int.
  destruct (Float64.of_int z); simpl; congruence.
Qed.

Lemma int_of_float_raises (f : Float64.float) (e : Py.exn) :
  Py.int_of_float f = Py.Raise e -> conversion_error e.
Proof. unfold conversion_error. destruct f; simpl; intros H; inversion H; auto. Qed.

Lemma pixel_coords_raises (shp : Z * Z * Z) (lm : mp.NormalizedLandmark)
    (e : Py.exn) :
  pixel_coords Py.int_of_float shp lm = Py.Raise e -> conversion_error e.
Proof.
  destruct shp as [[h w] c]. unfold pixel_coords.
  destruct (Py.float_mul_int (mp.x lm) w) as [fx|e1] eqn:Hfx; simpl.
  2:{ intros H. inversion H; subst. right. by apply float_mul_int_raises in Hfx. }
  destruct (Py.int_of_float fx) as [cx|e1] eqn:Hcx; simpl.
  2:{ intros H. inversion H; subst. by apply int_of_float_raises in Hcx. }
  destruct (Py.float_mul_int (mp.y lm) h) as [fy|e1] eqn:Hfy; simpl.
  2:{ intros H. inversion H; subst. right. by apply float_mul_int_raises in Hfy. }
  destruct (Py.int_of_float fy) as [cy|e1] eqn:Hcy; simpl; [discriminate|].
  intros H. inversion H; subst. by apply int_of_float_raises in Hcy.
Qed.

Lemma landmark_loop_raises (draw : bool) (lms : list mp.NormalizedLandmark) :
  forall (id : Z) (img img' : frame) (acc : list PixelPosition) (e : Py.exn),
    landmark_loop draw lms id img acc = (img', Py.Raise e) ->
    conversion_error e \/ circle_error e.
Proof.
  induction lms as [|lm rest IH]; intros id img img' acc e H; simpl in H;
    [discriminate|].
  destruct (pixel_coords Py.int_of_float (shape img) lm) as [[cx cy]|e1] eqn:Hpc.
  - destruct draw; [|by eapply IH].
    destruct (circle img (cx, cy) 8 (255, 0, 255)%Z FILLED) as [px|e1] eqn:Hc;
      [by eapply IH|].
    inversion H; subst. right. eexists _, _. exact Hc.
  - inversion H; subst. left. by apply pixel_coords_raises in Hpc.
Qed.

(** Asking for hand 0 never faults on the subscript. *)
Lemma findPosition_first_hand_raises (self : HandDetector) (img : frame)
    (draw : bool) (e : Py.exn) :
  snd (findPosition self img 0 draw) = Py.Raise e ->
  conversion_error e \/ circle_error e.
Proof.
  unfold findPosition. destruct (results self) as [res|]; [|discriminate].
  rewrite truthy_hand_list. case_bool_decide as Hne; simpl; [discriminate|].
  destruct (getitem_in_range (hand_list res) 0) as [myHand ->].
  { destruct (hand_list res); [contradiction|simpl; lia]. }
  destruct (landmark_loop draw (mp.landmark myHand) 0 img []) as [img' r] eqn:Hloop.
  simpl. intros ->. by apply landmark_loop_raises in Hloop.
Qed.






Lemma getitem_raises {A : Type} (l : list A) (i : Z) (e : Py.exn) :
  Py.getitem l i = Py.Raise e ->
  e = Py.IndexError
  /\ (Z.of_nat (length l) <= i \/ i < - Z.of_nat (length l))%Z.
Proof.
  intros H. split.
  - unfold Py.getitem in H. destruct (_ && _); [|congruence].
    destruct (l !! _); congruence.
  - destruct (Z.lt_ge_cases i (Z.of_nat (length l))) as [Hlt|?]; [|by left].
    destruct (Z.lt_ge_cases i (- Z.of_nat (length l))) as [?|Hge]; [by right|].
    exfalso. destruct (Z.lt_ge_cases i 0) as [Hneg|Hpos].
    + rewrite getitem_wraps in H by lia.
      destruct (getitem_in_range l (Z.of_nat (length l) + i)) as [a Ha]; [lia|].
      congruence.
    + destruct (getitem_in_range l i) as [a Ha]; [lia|]. congruence.
Qed.

(** X7: why [findPosition] raises.  An exception from [findPosition] is
    either the [IndexError] of the subscript, with a hand stored and the
    index outside [-n .. n-1], or, with the hand selected, a
    [ValueError] or [OverflowError] from converting a coordinate, or
    whatever [cv.circle] raised.  Asked for hand 0, as [main] asks, it
    never faults on the subscript. *)
Theorem findPosition_raise_causes (self : HandDetector) (img : frame)
    (hand_no : Z) (draw : bool) (e : Py.exn) :
  snd (findPosition self img hand_no draw) = Py.Raise e ->
  ((e = Py.IndexError
    /\ exists res, results self = Some res /\ hand_list res <> []
                   /\ (Z.of_nat (length (hand_list res)) <= hand_no
                       \/ hand_no < - Z.of_nat (length (hand_list res)))%Z)
   \/ ((conversion_error e \/ circle_error e)
       /\ exists res myHand,
            results self = Some res
            /\ Py.getitem (hand_list res) hand_no = Py.Ok myHand))
  /\ (hand_no = 0%Z -> conversion_error e \/ circle_error e).
Proof.
  intros H. split; [|intros ->; by apply findPosition_first_hand_raises in H].
  unfold findPosition in H. destruct (results self) as [res|]; [|discriminate].
  rewrite truthy_hand_list in H. case_bool_decide as Hne; simpl in H; [discriminate|].
  destruct (Py.getitem (hand_list res) hand_no) as [myHand|e1] eqn:Hget.
  - right.
    destruct (landmark_loop draw (mp.landmark myHand) 0 img []) as [img' r] eqn:Hloop.
    simpl in H. subst r. apply landmark_loop_raises in Hloop.
    split; [exact Hloop|]. by exists res, myHand.
  - left. simpl in H. inversion H; subst.
    apply getitem_raises in Hget as [-> Hout]. split; [reflexivity|].
    by exists res.
Qed.


Lemma gt_zero_cases (f : Float64.float) :
  Py.float_gt_zero f = true ->
  f = S754_infinity false \/ exists m e, f = S754_finite false m e.
Proof.
  destruct f as [[]|[]| |[] m e]; simpl; try discriminate; eauto.
Qed.

Lemma reciprocal_sign (d : Float64.float) :
  Py.float_gt_zero d = true ->
  match Float64.div (Float64.of_int 1) d with
  | S754_finite true _ _ => False
  | _ => True
  end.
Proof.
  intros Hd.
  assert (H1 : Float64.of_int 1 = S754_finite false 4503599627370496 (-52))
    by reflexivity.
  rewrite H1. destruct (gt_zero_cases d Hd) as [->|(m & e & ->)]; [exact I|].
  unfold Float64.div, SFdiv.
  destruct (SFdiv_core_binary _ _ _ _ _ _) as [[mz ez] lz].
  pose proof (binary_round_aux_sign (xorb false false) mz ez lz) as Hs.
  destruct (binary_round_aux _ _ _ _ _ _) as [| | |[] ? ?]; simpl in Hs;
    try exact I; discriminate.
Qed.

(** X9: the FPS overlay never shows a negative number: whatever the
    current time and the previous timestamp are (the clock may have gone
    backwards), when the label is produced it is ["FPS: "] followed by an
    integer that is at least [0]. *)
Theorem fps_label_nonneg (t : Float64.float) (p : Py.num) (fps : Py.num)
    (label : string) :
  fps_of t p = Py.Ok fps ->
  fps_text fps = Py.Ok label ->
  exists n : Z, (0 <= n)%Z /\ label = ("FPS: " ++ Py.str n)%string.
Proof.
  intros Hfps Htext. unfold fps_text in Htext.
  destruct (Py.int fps) as [n|e] eqn:Hn; [|discriminate].
  simpl in Htext. inversion Htext; subst. exists n. split; [|reflexivity].
  destruct (Py.as_float p) as [pf|e] eqn:Hp.
  - rewrite (fps_of_eq t p pf Hp) in Hfps. inversion Hfps; subst; clear Hfps.
    destruct (Py.float_gt_zero (Float64.sub t pf)) eqn:Hgt.
    + simpl in Hn. exact (int_of_float_nonneg _ _ (reciprocal_sign _ Hgt) Hn).
    + simpl in Hn. inversion Hn. lia.
  - unfold fps_of, Py.float_sub in Hfps. rewrite Hp in Hfps. discriminate.
Qed.

Lemma esc_pressed_mod (k : Z) : esc_pressed k = true <-> (k mod 256 = 27)%Z.
Proof.
  unfold esc_pressed. change 255%Z with (Z.ones 8).
  rewrite Z.land_ones by lia. change (2 ^ 8)%Z with 256%Z. apply Z.eqb_eq.
Qed.

(** X10: only the low eight bits of the key code decide: after a pass
    that completed, the loop is left exactly when the value of
    [cv.waitKey(1)] is congruent to 27 modulo 256; any other value,
    [-1] for no key included, goes on to the next read. *)
Theorem loop_exit_key (st st' : Locals) (t : Tick) (img : frame)
    (rest : list Tick) :
  read t = Some img ->
  body st img (now t) = (st', Py.Ok tt) ->
  ((key t mod 256 = 27)%Z -> loop st (t :: rest) = Broke st')
  /\ ((key t mod 256 <> 27)%Z -> loop st (t :: rest) = loop st' rest).
Proof.
  intros Hread Hbody. simpl. rewrite Hread, Hbody.
  pose proof (esc_pressed_mod (key t)) as Hesc.
  destruct (esc_pressed (key t)); split; intros Hk; try reflexivity.
  - exfalso. apply Hk. by apply Hesc.
  - apply Hesc in Hk. discriminate.
Qed.

(** X11: the FPS of a pass comes from two consecutive passes only: if the
    loop has completed a pass at time [t0] and the next pass, at time
    [t], completes as well, the label drawn on the frame it shows is that
    of [1 / (t - t0)] when [t - t0 > 0] and of [0] otherwise, whatever
    happened in earlier passes. *)
Theorem fps_of_consecutive_passes (st st1 st2 : Locals) (pre : list Tick)
    (t0 t : Tick) (img : frame) :
  loop st (pre ++ [t0]) = Waiting st1 ->
  read t = Some img ->
  body st1 img (now t) = (st2, Py.Ok tt) ->
  let elapsed := Float64.sub (now t) (now t0) in
  exists (label : string) (tr : list Effect) (img2 : frame),
    fps_text (if Py.float_gt_zero elapsed
              then Py.Float (Float64.div (Float64.of_int 1) elapsed)
              else Py.Int 0) = Py.Ok label
    /\ trace st2
       = tr ++ [imshow "Hand Tracking"
                  (with_data img2
                     (putText img2 label (10, 70)%Z FONT_HERSHEY_COMPLEX 2
                              (255, 0, 0)%Z 3))]
    /\ loop st (pre ++ [t0; t]) = (if esc_pressed (key t) then Broke st2
                                   else Waiting st2).
Proof.
  intros Hpre Hread Hbody elapsed.
  pose proof (loop_last_pTime _ _ _ _ Hpre) as Hp.
  pose proof Hbody as Hb.
  apply body_ok in Hb as (_ & _ & _ & fps & label & lmList & img2 & Hf & Ht & Htr).
  rewrite Hp, (fps_of_eq (now t) (Py.Float (now t0)) (now t0) eq_refl) in Hf.
  inversion Hf; subst fps.
  exists label,
    (trace st1 ++ match lmList with [] => [] | _ :: _ => [print_list lmList] end),
    img2.
  split; [exact Ht|]. split; [by rewrite Htr, app_assoc|].
  change (pre ++ [t0; t]) with (pre ++ [t0] ++ [t]). rewrite app_assoc.
  rewrite (loop_app _ _ _ _ Hpre). simpl. rewrite Hread, Hbody.
  destruct (esc_pressed (key t)); reflexivity.
Qed.

End MainProperties.

(* ===================================================================== *)
(** ** The further properties on the test double *)
(* ===================================================================== *)

Lemma findPosition_negative_index_witness :
  results (fst (detected [centred; off_centre]))
  = Some (mp.mkOutputs (Some [centred; off_centre]))
  /\ (- 2 <= -1 < 0)%Z
  /\ findPosition (fst (detected [centred; off_centre])) (vga []) (-1) false
     = findPosition (fst (detected [centred; off_centre])) (vga []) 1 false
  /\ findPosition (fst (detected [centred; off_centre])) (vga []) (-3) false
     = (fst (detected [centred; off_centre]), vga [], Py.Raise Py.IndexError).
Proof.
  destruct (findPosition_negative_index
              (fst (detected [centred; off_centre])) (vga []) (-1) false
              (mp.mkOutputs (Some [centred; off_centre])) eq_refl) as [Hwrap _].
  destruct (findPosition_negative_index
              (fst (detected [centred; off_centre])) (vga []) (-3) false
              (mp.mkOutputs (Some [centred; off_centre])) eq_refl) as [_ Hout].
  split; [reflexivity|]. split; [lia|]. split.
  - apply Hwrap. simpl. lia.
  - apply Hout; [simpl; lia|discriminate].
Defined.

Lemma findPosition_empty_iff_witness :
  snd (findPosition (fst (detected [hand []])) (vga []) 0 true) = Py.Ok []
  /\ snd (findPosition (fst (detected [centred])) (vga []) 0 true) <> Py.Ok [].
Proof.
  split.
  - apply (findPosition_empty_iff (fst (detected [hand []])) (vga []) 0 true).
    simpl. right. by exists (hand []).
  - intros H.
    apply (findPosition_empty_iff (fst (detected [centred])) (vga []) 0 true) in H.
    simpl in H. destruct H as [H|(myHand & Hget & Hlms)]; [discriminate|].
    vm_compute in Hget. inversion Hget; subst. discriminate.
Defined.

Lemma findPosition_draws_returned_witness :
  draw_dots (snd (detected [centred])) [(0, 320, 240)%Z]
  = Py.Ok (snd (fst (findPosition (fst (detected [centred]))
                       (snd (detected [centred])) 0 true))).
Proof.
  exact (findPosition_draws_returned
           (fst (detected [centred])) (snd (detected [centred])) _ 0
           [(0, 320, 240)%Z] eq_refl).
Defined.

Lemma findPosition_nonneg_witness :
  Forall (fun lm => not_below_zero (mp.x lm) /\ not_below_zero (mp.y lm))
         (mp.landmark off_centre)
  /\ Forall (fun p : PixelPosition => (0 <= p.1.1 /\ 0 <= p.1.2 /\ 0 <= p.2)%Z)
            [(0, 320, 240)%Z].
Proof.
  assert (Hall : Forall (fun lm => not_below_zero (mp.x lm) /\ not_below_zero (mp.y lm))
                        (mp.landmark off_centre)).
  { repeat constructor. }
  split; [exact Hall|].
  apply (findPosition_nonneg (fst (detected [off_centre])) (snd (detected [off_centre]))
           0 true (mp.mkOutputs (Some [off_centre])) off_centre [(0, 320, 240)%Z]);
    try reflexivity; try exact Hall; simpl; lia.
Defined.

Lemma run_latest_result_witness :
  existsb is_findHands [call_findPosition (vga [centred]) 0 true] = false
  /\ results (run init_default
                ([call_findHands (vga [centred]) true]
                 ++ call_findHands (vga []) true
                    :: [call_findPosition (vga [centred]) 0 true]))
     = Some (mp.mkOutputs None).
Proof.
  split; [reflexivity|].
  exact (proj2 (run_latest_result init_default
                  [call_findHands (vga [centred]) true]
                  [call_findPosition (vga [centred]) 0 true]
                  (vga []) true eq_refl)).
Defined.

Lemma findPosition_raise_causes_witness :
  snd (findPosition (fst (detected [unplaced])) (vga []) 0 true)
  = Py.Raise Py.ValueError
  /\ (conversion_error Py.ValueError \/ circle_error (B := backend) Py.ValueError)
  /\ snd (findPosition (fst (detected [unplaced])) (vga []) 1 true)
     = Py.Raise Py.IndexError.
Proof.
  split; [reflexivity|]. split; [|reflexivity].
  exact (proj2 (findPosition_raise_causes (fst (detected [unplaced])) (vga []) 0 true
                  Py.ValueError eq_refl) eq_refl).
Defined.

Lemma fps_label_nonneg_witness :
  fps_of (Float64.of_int 10) (Py.Float (Float64.ratio 201 20)) = Py.Ok (Py.Int 0)
  /\ fps_text (Py.Int 0) = Py.Ok "FPS: 0"%string
  /\ exists n : Z, (0 <= n)%Z /\ "FPS: 0"%string = ("FPS: " ++ Py.str n)%string.
Proof.
  split; [reflexivity|]. split; [reflexivity|].
  exact (fps_label_nonneg (Float64.of_int 10) (Py.Float (Float64.ratio 201 20))
           (Py.Int 0) "FPS: 0" eq_refl eq_refl).
Defined.

Lemma loop_exit_key_witness :
  (283 mod 256 = 27)%Z
  /\ ((-1) mod 256 <> 27)%Z
  /\ loop main_init [tick [centred] (Float64.of_int 10) 283; no_frame]
     = Broke (fst (body main_init (vga [centred]) (Float64.of_int 10)))
  /\ loop main_init [tick [centred] (Float64.of_int 10) (-1)]
     = Waiting (fst (body main_init (vga [centred]) (Float64.of_int 10))).
Proof.
  split; [reflexivity|]. split; [discriminate|]. split.
  - apply (loop_exit_key main_init _ (tick [centred] (Float64.of_int 10) 283)
             (vga [centred]) [no_frame] eq_refl eq_refl).
    reflexivity.
  - apply (loop_exit_key main_init _ (tick [centred] (Float64.of_int 10) (-1))
             (vga [centred]) [] eq_refl eq_refl).
    discriminate.
Defined.

Lemma fps_of_consecutive_passes_witness :
  exists (st2 : Locals) (label : string) (tr : list Effect)
         (img2 : Frame (@Pixels backend)),
    body (fst (body main_init (vga [centred]) (Float64.of_int 10))) (vga [])
         (Float64.ratio 201 20)
    = (st2, Py.Ok tt)
    /\ label = "FPS: 19"%string
    /\ trace st2
       = tr ++ [imshow "Hand Tracking"
                  (with_data img2
                     (putText img2 label (10, 70)%Z FONT_HERSHEY_COMPLEX 2
                              (255, 0, 0)%Z 3))].
Proof.
  destruct (fps_of_consecutive_passes main_init _ _ []
              (tick [centred] (Float64.of_int 10) (-1))
              (tick [] (Float64.ratio 201 20) (-1)) (vga [])
              eq_refl eq_refl eq_refl) as (label & tr & img2 & Hlabel & Htr & _).
  eexists _, label, tr, img2. split; [reflexivity|]. split; [|exact Htr].
  vm_compute in Hlabel. by inversion Hlabel.
Defined.

Lemma findPosition_all_or_nothing_witness :
  Exists (fun lm => ~ (finite (mp.x lm) /\ finite (mp.y lm))) (mp.landmark unplaced)
  /\ exists e,
       snd (findPosition (fst (detected [unplaced])) (vga []) 0 false) = Py.Raise e.
Proof.
  assert (Hex : Exists (fun lm => ~ (finite (mp.x lm) /\ finite (mp.y lm)))
                       (mp.landmark unplaced)).
  { constructor. simpl. tauto. }
  split; [exact Hex|].
  exact (proj2 (findPosition_all_or_nothing (fst (detected [unplaced])) (vga []) 0
                  false (mp.mkOutputs (Some [unplaced])) unplaced eq_refl eq_refl)
               Hex).
Defined.
